(** * The mock LLM provider of [framework/llm/mock.py]

  A shallow embedding of [MockLLMProvider] and of the Python built-ins its
  two operations use ([str], [repr], [len], [in], [str.lower], slicing,
  dictionary lookup), followed by the properties of the provider.

  Python [str] values are modelled by [string]: a sequence of code points
  below 256.  Python [int] values are modelled by [Z]. *)

From Stdlib Require Import ZArith List String Ascii Bool Lia.
From Stdlib Require Import DecimalString DecimalZ.
From Stdlib Require Import Permutation.
Import ListNotations.

Set Warnings "-register-all".

Open Scope string_scope.
Open Scope Z_scope.

(** ** Python built-ins *)

Module Py.

(** The characters that cannot be written inside a literal. *)
Definition dquote : ascii := "034"%char.
Definition squote : ascii := "039"%char.
Definition backslash : ascii := "092"%char.
Definition tab : ascii := "009"%char.
Definition newline : ascii := "010"%char.
Definition creturn : ascii := "013"%char.

(** [len(s)] *)
Definition len (s : string) : Z := Z.of_nat (String.length s).

(** [s.startswith(sub)] *)
Fixpoint startswith (s sub : string) : bool :=
  match sub, s with
  | EmptyString, _ => true
  | String _ _, EmptyString => false
  | String a sub', String b s' => Ascii.eqb a b && startswith s' sub'
  end.

(** [sub in s] on two [str] values: [sub] occurs in [s] at some offset. *)
Fixpoint contains (sub s : string) : bool :=
  startswith s sub
  || match s with
     | EmptyString => false
     | String _ s' => contains sub s'
     end.

(** [c in s] for one character. *)
Fixpoint has_char (c : ascii) (s : string) : bool :=
  match s with
  | EmptyString => false
  | String a s' => Ascii.eqb a c || has_char c s'
  end.

(** [s[:n]] for [n >= 0] *)
Fixpoint take (n : nat) (s : string) : string :=
  match n, s with
  | O, _ => EmptyString
  | S _, EmptyString => EmptyString
  | S n', String a s' => String a (take n' s')
  end.

(** [str.lower] on one code point below 256: the ASCII capitals and the
    Latin-1 capitals (U+00C0 to U+00DE without the multiplication sign
    U+00D7) move up by 32, everything else is kept. *)
Definition lower_char (c : ascii) : ascii :=
  let n := N_of_ascii c in
  if ((65 <=? n) && (n <=? 90)
      || (192 <=? n) && (n <=? 222) && negb (n =? 215))%N
  then ascii_of_N (n + 32)
  else c.

(** [s.lower()] *)
Fixpoint lower (s : string) : string :=
  match s with
  | EmptyString => EmptyString
  | String a s' => String (lower_char a) (lower s')
  end.

(** [sep.join(parts)] *)
Fixpoint join (sep : string) (parts : list string) : string :=
  match parts with
  | [] => EmptyString
  | [p] => p
  | p :: rest => p ++ sep ++ join sep rest
  end.

(** [str(n)] for an [int]. *)
Definition str_int (z : Z) : string := NilZero.string_of_int (Z.to_int z).

(** [str.isprintable] on one code point below 256. *)
Definition printable (c : ascii) : bool :=
  let n := N_of_ascii c in
  ((32 <=? n) && (n <? 127) || (161 <=? n) && negb (n =? 173))%N.

Definition hex_digit (n : N) : ascii :=
  if (n <? 10)%N then ascii_of_N (48 + n) else ascii_of_N (87 + n).

(** One character of [repr(s)], inside the quotes [q]. *)
Definition repr_char (q c : ascii) : string :=
  if Ascii.eqb c q || Ascii.eqb c backslash then String backslash (String c EmptyString)
  else if Ascii.eqb c tab then String backslash "t"
  else if Ascii.eqb c newline then String backslash "n"
  else if Ascii.eqb c creturn then String backslash "r"
  else if printable c then String c EmptyString
  else
    let n := N_of_ascii c in
    String backslash
      (String "x" (String (hex_digit (n / 16)) (String (hex_digit (n mod 16)) EmptyString))).

Fixpoint repr_chars (q : ascii) (s : string) : string :=
  match s with
  | EmptyString => EmptyString
  | String a s' => repr_char q a ++ repr_chars q s'
  end.

(** The quote [repr] chooses: double quotes only when the text has a
    single quote and no double quote. *)
Definition repr_quote (s : string) : ascii :=
  if has_char squote s && negb (has_char dquote s) then dquote else squote.

(** [repr(s)] for a [str]. *)
Definition repr_str (s : string) : string :=
  let q := repr_quote s in
  String q (repr_chars q s ++ String q EmptyString).

(** The values a message can carry ([Any], restricted to plain data).
    A [dict] keeps its items in insertion order; its keys are [str]. *)
Inductive value : Type :=
| VNone
| VBool (b : bool)
| VInt (z : Z)
| VStr (s : string)
| VList (items : list value)
| VDict (items : list (string * value)).

Definition dict : Type := list (string * value).

(** [repr(v)] *)
Fixpoint repr (v : value) : string :=
  match v with
  | VNone => "None"
  | VBool true => "True"
  | VBool false => "False"
  | VInt z => str_int z
  | VStr s => repr_str s
  | VList items => "[" ++ join ", " (map repr items) ++ "]"
  | VDict items =>
      "{" ++ join ", " (map (fun kv : string * value =>
                               let (k, v') := kv in repr_str k ++ ": " ++ repr v')
                            items)
          ++ "}"
  end.

(** [str(v)]: the text itself for a [str], [repr(v)] otherwise. *)
Definition str (v : value) : string :=
  match v with
  | VStr s => s
  | _ => repr v
  end.

(** [d.get(key, default)] *)
Fixpoint get_default (d : dict) (key : string) (default : value) : value :=
  match d with
  | [] => default
  | (k, v) :: rest => if String.eqb k key then v else get_default rest key default
  end.

(** [d.get(key)] *)
Definition get (d : dict) (key : string) : value := get_default d key VNone.

(** [v == s] for a [str] literal [s]: only an equal [str] compares equal. *)
Definition eq_str (v : value) (s : string) : bool :=
  match v with
  | VStr t => String.eqb t s
  | _ => false
  end.

(** Truth value of an optional [str] ([str | None]): [None] and the empty
    text are false. *)
Definition truthy (o : option string) : bool :=
  match o with
  | None => false
  | Some EmptyString => false
  | Some (String _ _) => true
  end.

End Py.

(** ** JSON texts

    The grammar of RFC 8259 as a recursive-descent parser.  A string keeps
    the text between its quotes as written, a number keeps its lexeme. *)

Module Json.

Inductive json : Type :=
| JNull
| JBool (b : bool)
| JNumber (lexeme : string)
| JString (text : string)
| JArray (elements : list json)
| JObject (members : list (string * json)).

Definition is_ws (c : ascii) : bool :=
  Ascii.eqb c " " || Ascii.eqb c Py.tab || Ascii.eqb c Py.newline || Ascii.eqb c Py.creturn.

Fixpoint skip_ws (s : string) : string :=
  match s with
  | EmptyString => EmptyString
  | String c s' => if is_ws c then skip_ws s' else s
  end.

Definition is_digit (c : ascii) : bool :=
  let n := N_of_ascii c in ((48 <=? n) && (n <=? 57))%N.

Definition is_hex (c : ascii) : bool :=
  let n := N_of_ascii c in
  (is_digit c || (65 <=? n) && (n <=? 70) || (97 <=? n) && (n <=? 102))%N.

(** The longest run of digits at the front of [s], and what follows it. *)
Fixpoint digits (s : string) : string * string :=
  match s with
  | EmptyString => (EmptyString, EmptyString)
  | String c s' =>
      if is_digit c then let (d, r) := digits s' in (String c d, r)
      else (EmptyString, s)
  end.

Definition digits1 (s : string) : option (string * string) :=
  match digits s with
  | (EmptyString, _) => None
  | (d, r) => Some (d, r)
  end.

Definition parse_int_part (s : string) : option (string * string) :=
  match s with
  | EmptyString => None
  | String c s' =>
      if Ascii.eqb c "0" then Some ("0", s')
      else if is_digit c then let (d, r) := digits s' in Some (String c d, r)
      else None
  end.

Definition parse_frac (s : string) : option (string * string) :=
  match s with
  | String "." s' =>
      match digits1 s' with
      | Some (d, r) => Some (String "." d, r)
      | None => None
      end
  | _ => Some (EmptyString, s)
  end.

Definition parse_sign (s : string) : string * string :=
  match s with
  | String "+" s' => ("+", s')
  | String "-" s' => ("-", s')
  | _ => (EmptyString, s)
  end.

Definition parse_exp (s : string) : option (string * string) :=
  match s with
  | String c s' =>
      if Ascii.eqb c "e" || Ascii.eqb c "E" then
        let (sg, s'') := parse_sign s' in
        match digits1 s'' with
        | Some (d, r) => Some (String c (sg ++ d), r)
        | None => None
        end
      else Some (EmptyString, s)
  | EmptyString => Some (EmptyString, s)
  end.

Definition parse_number (s : string) : option (string * string) :=
  let (sg, s1) := match s with
                  | String "-" t => ("-", t)
                  | _ => (EmptyString, s)
                  end in
  match parse_int_part s1 with
  | None => None
  | Some (i, s2) =>
      match parse_frac s2 with
      | None => None
      | Some (f, s3) =>
          match parse_exp s3 with
          | None => None
          | Some (e, s4) => Some (sg ++ i ++ f ++ e, s4)
          end
      end
  end.

Definition is_escape (c : ascii) : bool :=
  Ascii.eqb c Py.dquote || Ascii.eqb c Py.backslash || Ascii.eqb c "/"
  || Ascii.eqb c "b" || Ascii.eqb c "f" || Ascii.eqb c "n" || Ascii.eqb c "r"
  || Ascii.eqb c "t".

Definition prepend (pre : string) (r : option (string * string)) : option (string * string) :=
  match r with
  | Some (t, rest) => Some (pre ++ t, rest)
  | None => None
  end.

(** The characters of a string after its opening quote, up to and
    including the closing quote. *)
Fixpoint parse_chars (s : string) : option (string * string) :=
  match s with
  | EmptyString => None
  | String c s' =>
      if Ascii.eqb c Py.dquote then Some (EmptyString, s')
      else if Ascii.eqb c Py.backslash then
        match s' with
        | EmptyString => None
        | String e s'' =>
            if is_escape e then prepend (String c (String e EmptyString)) (parse_chars s'')
            else if Ascii.eqb e "u" then
              match s'' with
              | String h1 (String h2 (String h3 (String h4 s3))) =>
                  if is_hex h1 && is_hex h2 && is_hex h3 && is_hex h4
                  then prepend (String c (String e (String h1 (String h2
                                  (String h3 (String h4 EmptyString))))))
                               (parse_chars s3)
                  else None
              | _ => None
              end
            else None
        end
      else if (N_of_ascii c <? 32)%N then None
      else prepend (String c EmptyString) (parse_chars s')
  end.

Definition parse_literal (s : string) : option (json * string) :=
  match s with
  | String "t" (String "r" (String "u" (String "e" r))) => Some (JBool true, r)
  | String "f" (String "a" (String "l" (String "s" (String "e" r)))) => Some (JBool false, r)
  | String "n" (String "u" (String "l" (String "l" r))) => Some (JNull, r)
  | _ => None
  end.

Fixpoint parse_value (fuel : nat) (s : string) : option (json * string) :=
  match fuel with
  | O => None
  | S fuel' =>
      match skip_ws s with
      | EmptyString => None
      | String c s' =>
          if Ascii.eqb c Py.dquote then
            match parse_chars s' with
            | Some (t, r) => Some (JString t, r)
            | None => None
            end
          else if Ascii.eqb c "{" then
            match skip_ws s' with
            | String "}" r => Some (JObject [], r)
            | _ =>
                match parse_members fuel' s' with
                | Some (ms, r) => Some (JObject ms, r)
                | None => None
                end
            end
          else if Ascii.eqb c "[" then
            match skip_ws s' with
            | String "]" r => Some (JArray [], r)
            | _ =>
                match parse_elements fuel' s' with
                | Some (vs, r) => Some (JArray vs, r)
                | None => None
                end
            end
          else if Ascii.eqb c "-" || is_digit c then
            match parse_number (String c s') with
            | Some (n, r) => Some (JNumber n, r)
            | None => None
            end
          else parse_literal (String c s')
      end
  end

with parse_elements (fuel : nat) (s : string) : option (list json * string) :=
  match fuel with
  | O => None
  | S fuel' =>
      match parse_value fuel' s with
      | None => None
      | Some (v, r) =>
          match skip_ws r with
          | String "," r' =>
              match parse_elements fuel' r' with
              | Some (vs, r'') => Some (v :: vs, r'')
              | None => None
              end
          | String "]" r' => Some ([v], r')
          | _ => None
          end
      end
  end

with parse_members (fuel : nat) (s : string) : option (list (string * json) * string) :=
  match fuel with
  | O => None
  | S fuel' =>
      match skip_ws s with
      | EmptyString => None
      | String c s1 =>
          if Ascii.eqb c Py.dquote then
            match parse_chars s1 with
            | None => None
            | Some (k, s2) =>
                match skip_ws s2 with
                | String ":" s3 =>
                    match parse_value fuel' s3 with
                    | None => None
                    | Some (v, s4) =>
                        match skip_ws s4 with
                        | String "," s5 =>
                            match parse_members fuel' s5 with
                            | Some (ms, r) => Some ((k, v) :: ms, r)
                            | None => None
                            end
                        | String "}" s5 => Some ([(k, v)], s5)
                        | _ => None
                        end
                    end
                | _ => None
                end
            end
          else None
      end
  end.

(** A whole text: one value, with white space around it and nothing else.
    The fuel is twice the length of the text plus two; [valid] below does
    not depend on that choice. *)
Definition loads (s : string) : option json :=
  match parse_value (2 * String.length s + 2) s with
  | Some (v, rest) =>
      match skip_ws rest with
      | EmptyString => Some v
      | String _ _ => None
      end
  | None => None
  end.

(** [s] is syntactically valid JSON: some amount of fuel parses all of it. *)
Definition valid (s : string) : Prop :=
  exists fuel v rest,
    parse_value fuel s = Some (v, rest) /\ skip_ws rest = EmptyString.

End Json.

(** ** The provider interface types *)

Module Tool.

(** Modelled from the spec: the class [Tool] of [framework/llm/provider.py],
    which is imported by [mock.py]; a [name] and an opaque argument schema.
    The mock reads only [name]. *)
Record t : Type := mk {
  name : string;
  schema : Py.value
}.

End Tool.

Module LLMResponse.

(** Modelled from the spec: the class [LLMResponse] of
    [framework/llm/provider.py] (the spec's CompletionResult), with the
    fields [mock.py] fills in when it constructs one. *)
Record t : Type := mk {
  content : string;
  model : string;
  input_tokens : Z;
  output_tokens : Z;
  stop_reason : string;
  raw_response : Py.value
}.

End LLMResponse.

(** ** [class MockLLMProvider] *)

Module MockLLMProvider.

(** The instance attributes set by [__init__]. *)
Record t : Type := mk {
  model : string;
  default_response : option string;
  _call_count : Z
}.

(** Methods read and update [self]: a state monad over the instance. *)
Definition M (A : Type) : Type := t -> A * t.

Definition ret {A : Type} (a : A) : M A := fun self => (a, self).

Definition bind {A B : Type} (m : M A) (k : A -> M B) : M B :=
  fun self => let (a, self') := m self in k a self'.

Definition get_self : M t := fun self => (self, self).

(** [self._call_count = n] *)
Definition set_call_count (n : Z) : M unit :=
  fun self =>
    (tt, {| model := model self;
            default_response := default_response self;
            _call_count := n |}).

Declare Scope mock_scope.
Delimit Scope mock_scope with mock.
Notation "x <- c1 ;; c2" := (bind c1 (fun x => c2))
  (at level 61, c1 at next level, right associativity) : mock_scope.
Notation "c1 ;; c2" := (bind c1 (fun _ => c2))
  (at level 61, right associativity) : mock_scope.
Open Scope mock_scope.

Definition result {A : Type} (r : A * t) : A := fst r.
Definition after {A : Type} (r : A * t) : t := snd r.

(** [MockLLMProvider(model, default_response)] *)
Definition __init__ (model : string) (default_response : option string) : t :=
  {| model := model; default_response := default_response; _call_count := 0 |}.

(** [self._call_count += 1] *)
Definition incr_call_count : M unit :=
  self <- get_self ;; set_call_count (_call_count self + 1).

(** The loop [for msg in reversed(messages): if msg.get("role") == "user":
    last_message = ...; break], run on the reversed sequence; [post] is
    what the method does to [str(msg.get("content", ""))]. *)
Fixpoint scan_reversed (post : string -> string) (reversed : list Py.dict) : string :=
  match reversed with
  | [] => EmptyString
  | msg :: rest =>
      if Py.eq_str (Py.get msg "role") "user"
      then post (Py.str (Py.get_default msg "content" (Py.VStr EmptyString)))
      else scan_reversed post rest
  end.

Definition last_user_message (post : string -> string) (messages : list Py.dict) : string :=
  scan_reversed post (rev messages).

(** The canned responses, as the literals of the source. *)
Definition search_response : string :=
  "[Mock] Search results: Found 3 relevant sources. "
  ++ "1) Example article, 2) Research paper, 3) Documentation.".

Definition summary_response : string :=
  "[Mock] Summary: Key points extracted from the content. "
  ++ "Main findings and conclusions included.".

Definition parsed_response : string :=
  "[Mock] Parsed: topic='example', keywords=['mock', 'test']".

Definition evaluation_response : string :=
  "[Mock] Evaluation: Score 85/100. Quality: Good. Status: Approved.".

Definition report_response : string :=
  "[Mock] Report generated with introduction, findings, "
  ++ "and conclusion sections.".

Definition fallback_response (call_count : Z) : string :=
  "[Mock] Processed request (call #" ++ Py.str_int call_count ++ "). "
  ++ "This is a mock response for testing without API calls.".

(** The literal returned in JSON mode: an object with the members
    [status], [mock] and [message], written with double quotes. *)
Definition quoted (s : string) : string :=
  String Py.dquote (s ++ String Py.dquote EmptyString).

Definition json_response : string :=
  "{" ++ quoted "status" ++ ": " ++ quoted "success" ++ ", "
      ++ quoted "mock" ++ ": true, "
      ++ quoted "message" ++ ": " ++ quoted "Mock response" ++ "}".

(** [_generate_contextual_response(self, user_message, system)] *)
Definition _generate_contextual_response (user_message system : string) : M string :=
  self <- get_self ;;
  let combined := Py.lower (user_message ++ system) in
  if Py.contains "search" combined then ret search_response
  else if Py.contains "summar" combined then ret summary_response
  else if Py.contains "parse" combined || Py.contains "extract" combined
  then ret parsed_response
  else if Py.contains "evaluat" combined || Py.contains "quality" combined
  then ret evaluation_response
  else if Py.contains "write" combined || Py.contains "report" combined
  then ret report_response
  else ret (fallback_response (_call_count self)).

(** [complete(self, messages, system, tools, max_tokens, response_format,
    json_mode)] *)
Definition complete (messages : list Py.dict) (system : string)
    (tools : option (list Tool.t)) (max_tokens : Z)
    (response_format : option Py.dict) (json_mode : bool) : M LLMResponse.t :=
  incr_call_count ;;
  let last_message := last_user_message (fun s => s) messages in
  self <- get_self ;;
  content <- (if Py.truthy (default_response self)
              then ret (match default_response self with
                        | Some r => r
                        | None => EmptyString
                        end)
              else if json_mode then ret json_response
              else _generate_contextual_response last_message system) ;;
  self <- get_self ;;
  ret {| LLMResponse.content := content;
         LLMResponse.model := model self;
         LLMResponse.input_tokens :=
           Py.len (Py.str (Py.VList (map Py.VDict messages))) / 4;
         LLMResponse.output_tokens := Py.len content / 4;
         LLMResponse.stop_reason := "end_turn";
         LLMResponse.raw_response :=
           Py.VDict [("mock", Py.VBool true);
                     ("call_count", Py.VInt (_call_count self))] |}.

(** The caller's [tool_executor]: given a tool name and its arguments it
    returns a result or fails. *)
Definition ToolExecutor : Type := string -> Py.value -> option Py.value.

(** [[t.name for t in tools] if tools else []] *)
Definition tool_names_of (tools : option (list Tool.t)) : list string :=
  match tools with
  | Some (t :: ts) => map Tool.name (t :: ts)
  | Some [] => []
  | None => []
  end.

(** [complete_with_tools(self, messages, system, tools, tool_executor,
    max_iterations)] *)
Definition complete_with_tools (messages : list Py.dict) (system : string)
    (tools : option (list Tool.t)) (tool_executor : ToolExecutor)
    (max_iterations : Z) : M LLMResponse.t :=
  incr_call_count ;;
  let last_message := last_user_message (Py.take 100) messages in
  let tool_names := tool_names_of tools in
  let content :=
    "[Mock] Processed with tools: " ++ Py.str (Py.VList (map Py.VStr tool_names))
    ++ ". " ++ "Context: " ++ last_message ++ "..." in
  self <- get_self ;;
  ret {| LLMResponse.content := content;
         LLMResponse.model := model self;
         LLMResponse.input_tokens :=
           Py.len (Py.str (Py.VList (map Py.VDict messages))) / 4;
         LLMResponse.output_tokens := Py.len content / 4;
         LLMResponse.stop_reason := "end_turn";
         LLMResponse.raw_response :=
           Py.VDict [("mock", Py.VBool true);
                     ("tools_available", Py.VList (map Py.VStr tool_names))] |}.

(** The property [call_count] *)
Definition call_count : M Z :=
  self <- get_self ;; ret (_call_count self).

(** [reset(self)] *)
Definition reset : M unit := set_call_count 0.

End MockLLMProvider.

(** ** Client programs and the words of the specification *)

Module Spec.

Import MockLLMProvider.

(** The priority table of the contextual response policy: the substrings
    of each category, in the listed order, with the category's response. *)
Definition priority_table : list (list string * string) :=
  [ (["search"], search_response);
    (["summar"], summary_response);
    (["parse"; "extract"], parsed_response);
    (["evaluat"; "quality"], evaluation_response);
    (["write"; "report"], report_response) ].

(** A category matches when one of its substrings occurs in the text. *)
Definition matches (keys : list string) (combined : string) : bool :=
  existsb (fun k => Py.contains k combined) keys.

(** The response of the earliest-listed category that matches. *)
Fixpoint first_match (table : list (list string * string)) (combined : string)
  : option string :=
  match table with
  | [] => None
  | (keys, response) :: rest =>
      if matches keys combined then Some response else first_match rest combined
  end.

(** Classification of a combined text at a given call count. *)
Definition classify (combined : string) (count : Z) : string :=
  match first_match priority_table combined with
  | Some response => response
  | None => fallback_response count
  end.

(** A message whose role is "user". *)
Definition is_user (msg : Py.dict) : bool := Py.eq_str (Py.get msg "role") "user".

(** The text of a message: its content as a string, empty when the
    message has no content. *)
Definition content_text (msg : Py.dict) : string :=
  Py.str (Py.get_default msg "content" (Py.VStr EmptyString)).

(** [most_recent_user messages o]: [o] is the last message of the sequence
    whose role is "user", or [None] when no message has that role. *)
Inductive most_recent_user : list Py.dict -> option Py.dict -> Prop :=
| mru_none messages :
    Forall (fun m => is_user m = false) messages ->
    most_recent_user messages None
| mru_some earlier msg later :
    is_user msg = true ->
    Forall (fun m => is_user m = false) later ->
    most_recent_user (earlier ++ msg :: later) (Some msg).

Definition text_of (o : option Py.dict) : string :=
  match o with
  | Some msg => content_text msg
  | None => EmptyString
  end.

(** The inputs of [complete] that reach the no-match fallback branch of the
    classification (JSON mode bypasses the classification). *)
Definition fallback_branch (messages : list Py.dict) (system : string)
    (json_mode : bool) : bool :=
  negb json_mode
  && match first_match priority_table
             (Py.lower (last_user_message (fun s => s) messages ++ system)) with
     | Some _ => false
     | None => true
     end.

Fixpoint all_printable (s : string) : bool :=
  match s with
  | EmptyString => true
  | String c s' => Py.printable c && all_printable s'
  end.

(** A text that [repr] writes between its quotes unchanged: printable
    characters only, no backslash, and not both kinds of quote. *)
Definition verbatim (s : string) : bool :=
  all_printable s
  && negb (Py.has_char Py.backslash s)
  && negb (Py.has_char Py.squote s && Py.has_char Py.dquote s).

(** One top-level invocation of a contract operation. *)
Inductive call : Type :=
| Complete (messages : list Py.dict) (system : string)
    (tools : option (list Tool.t)) (max_tokens : Z)
    (response_format : option Py.dict) (json_mode : bool)
| CompleteWithTools (messages : list Py.dict) (system : string)
    (tools : option (list Tool.t)) (tool_executor : ToolExecutor)
    (max_iterations : Z).

Definition run_call (c : call) : M LLMResponse.t :=
  match c with
  | Complete messages system tools max_tokens response_format json_mode =>
      complete messages system tools max_tokens response_format json_mode
  | CompleteWithTools messages system tools tool_executor max_iterations =>
      complete_with_tools messages system tools tool_executor max_iterations
  end.

(** A sequence of invocations on one instance, in order. *)
Fixpoint run_calls (cs : list call) : M (list LLMResponse.t) :=
  match cs with
  | [] => ret []
  | c :: cs' =>
      r <- run_call c ;;
      rs <- run_calls cs' ;;
      ret (r :: rs)
  end.

(** The closed set of stop reasons. *)
Definition known_stop_reason (s : string) : bool :=
  String.eqb s "end_turn" || String.eqb s "tool_use" || String.eqb s "max_tokens".

(** A well-formed result: token counts are not negative and the stop
    reason is one of the closed set. *)
Definition well_formed (r : LLMResponse.t) : Prop :=
  0 <= LLMResponse.input_tokens r
  /\ 0 <= LLMResponse.output_tokens r
  /\ known_stop_reason (LLMResponse.stop_reason r) = true.

(** The instance after [self._call_count += 1]. *)
Definition counted (s : MockLLMProvider.t) : MockLLMProvider.t :=
  {| model := model s;
     default_response := default_response s;
     _call_count := _call_count s + 1 |}.

(** The content [complete] chooses, as a function of the instance after
    the increment. *)
Definition chosen_content (s : MockLLMProvider.t) (messages : list Py.dict)
    (system : string) (json_mode : bool) : string :=
  if Py.truthy (default_response s)
  then match default_response s with Some r => r | None => EmptyString end
  else if json_mode then json_response
  else Spec.classify
         (Py.lower (last_user_message (fun s => s) messages ++ system))
         (_call_count s).

(** The content [complete_with_tools] builds. *)
Definition tools_content (messages : list Py.dict) (tools : option (list Tool.t))
  : string :=
  "[Mock] Processed with tools: "
  ++ Py.str (Py.VList (map Py.VStr (tool_names_of tools)))
  ++ ". " ++ "Context: " ++ last_user_message (Py.take 100) messages ++ "...".

(** Inputs used in the examples: the history of the class docstring, and
    two tools. *)
Definition hello : list Py.dict :=
  [[("role", Py.VStr "user"); ("content", Py.VStr "Hello")]].

Definition two_tools : list Tool.t :=
  [Tool.mk "web_search" Py.VNone; Tool.mk "calculator" Py.VNone].

Definition failing_executor : ToolExecutor := fun _ _ => None.

End Spec.

Import Spec.

(** ** Sessions on one instance: calls, resets and reads of the counter *)

Module Session.

Import MockLLMProvider.

Inductive op : Type :=
| Call (c : call)
| Reset
| ReadCount.

(** What the caller sees of one operation. *)
Inductive observation : Type :=
| Response (r : LLMResponse.t)
| Count (n : Z)
| Done.

Definition run_op (o : op) : M observation :=
  match o with
  | Call c => r <- run_call c ;; ret (Response r)
  | Reset => reset ;; ret Done
  | ReadCount => n <- call_count ;; ret (Count n)
  end.

Fixpoint run_ops (os : list op) : M (list observation) :=
  match os with
  | [] => ret []
  | o :: os' =>
      x <- run_op o ;;
      xs <- run_ops os' ;;
      ret (x :: xs)
  end.

Definition is_call (o : op) : bool :=
  match o with
  | Call _ => true
  | _ => false
  end.

Definition is_reset (o : op) : bool :=
  match o with
  | Reset => true
  | _ => false
  end.

(** The number of contract calls among the operations. *)
Definition calls_in (os : list op) : Z :=
  Z.of_nat (List.length (filter is_call os)).

(** The instance after [n] further calls. *)
Definition advanced (n : nat) (self : MockLLMProvider.t) : MockLLMProvider.t :=
  {| model := model self;
     default_response := default_response self;
     _call_count := _call_count self + Z.of_nat n |}.

End Session.

(** ** [framework/logging_config.py]: validation of a log level *)

Module LoggingConfig.

(** [str.upper] on one code point below 256.  The result can leave that
    range (the micro sign U+00B5 and U+00FF) or have two characters (the
    sharp s U+00DF), so an upper-cased text is a list of code points. *)
Definition upper_char (c : ascii) : list N :=
  let n := N_of_ascii c in
  if ((97 <=? n) && (n <=? 122))%N then [(n - 32)%N]
  else if (n =? 181)%N then [924%N]
  else if (n =? 223)%N then [83%N; 83%N]
  else if ((224 <=? n) && (n <=? 254) && negb (n =? 247))%N then [(n - 32)%N]
  else if (n =? 255)%N then [376%N]
  else [n].

(** [s.upper()] *)
Fixpoint upper (s : string) : list N :=
  match s with
  | EmptyString => []
  | String c s' => (upper_char c ++ upper s')%list
  end.

(** The code points of a text. *)
Fixpoint codes (s : string) : list N :=
  match s with
  | EmptyString => []
  | String c s' => N_of_ascii c :: codes s'
  end.

(** Equality of two texts given by their code points. *)
Fixpoint codes_eqb (a b : list N) : bool :=
  match a, b with
  | [], [] => true
  | x :: a', y :: b' => (x =? y)%N && codes_eqb a' b'
  | _, _ => false
  end.

(** The elements of the set [VALID_LOG_LEVELS].  Python does not fix the
    order in which a set of [str] is iterated: the functions below take the
    elements in the order the set yields them. *)
Definition VALID_LOG_LEVELS : list string :=
  ["DEBUG"; "INFO"; "WARNING"; "ERROR"; "CRITICAL"].

(** [x in elements] for a set of [str] *)
Definition member (x : list N) (elements : list string) : bool :=
  existsb (fun e => codes_eqb (codes e) x) elements.

(** [sorted(elements)]: by code points, as Python compares [str]. *)
Fixpoint insert (x : string) (l : list string) : list string :=
  match l with
  | [] => [x]
  | y :: l' => if String.leb x y then x :: l else y :: insert x l'
  end.

Fixpoint sorted (l : list string) : list string :=
  match l with
  | [] => []
  | x :: l' => insert x (sorted l')
  end.

Inductive exn : Type :=
| ValueError (message : string)
| AttributeError (name : list N).

Inductive outcome (A : Type) : Type :=
| Returned (a : A)
| Raised (e : exn).

Arguments Returned {A} a.
Arguments Raised {A} e.

(** The level constants of Python's [logging] module that a validated
    name can denote. *)
Definition logging_levels : list (string * Z) :=
  [("CRITICAL", 50); ("ERROR", 40); ("WARNING", 30); ("INFO", 20); ("DEBUG", 10)].

(** [getattr(logging, name)] on those constants. *)
Fixpoint getattr_logging (table : list (string * Z)) (name : list N) : outcome Z :=
  match table with
  | [] => Raised (AttributeError name)
  | (k, v) :: rest =>
      if codes_eqb (codes k) name then Returned v else getattr_logging rest name
  end.

(** [_validate_log_level(level)], with the elements of [VALID_LOG_LEVELS]
    in the order the set yields them. *)
Definition _validate_log_level (valid_log_levels : list string) (level : string)
  : outcome Z :=
  let level_upper := upper level in
  if negb (member level_upper valid_log_levels) then
    let valid_levels := Py.join ", " (sorted valid_log_levels) in
    Raised (ValueError ("Invalid log level '" ++ level ++ "'. Valid levels are: "
                        ++ valid_levels))
  else getattr_logging logging_levels level_upper.

(** All 256 characters. *)
Definition all_ascii : list ascii := map ascii_of_nat (seq 0 256).

(** An ASCII capital other than S. *)
Definition plain_capital (u : ascii) : bool :=
  let n := N_of_ascii u in ((65 <=? n) && (n <=? 90) && negb (n =? 83))%N.

Fixpoint plain_capitals (s : string) : bool :=
  match s with
  | EmptyString => true
  | String u s' => plain_capital u && plain_capitals s'
  end.

(** For a capital [u] other than S: the upper case of [c] starts with [u]
    exactly when it is [u], exactly when [c] and [u] have the same lower
    case. *)
Definition case_check (c u : ascii) : bool :=
  negb (plain_capital u)
  || (Bool.eqb (codes_eqb (upper_char c) [N_of_ascii u])
               (Ascii.eqb (Py.lower_char c) (Py.lower_char u))
      && Bool.eqb (match upper_char c with
                   | x :: _ => (x =? N_of_ascii u)%N
                   | [] => false
                   end)
                  (codes_eqb (upper_char c) [N_of_ascii u])).

End LoggingConfig.

(** ** Texts inside structured content *)

Module Content.

(** [occurs s v]: the text [s] is [v] itself, or an item of a list, a key or
    a value of a dict, at any depth inside [v]. *)
Inductive occurs (s : string) : Py.value -> Prop :=
| occurs_here : occurs s (Py.VStr s)
| occurs_item (items : list Py.value) (v : Py.value) :
    In v items -> occurs s v -> occurs s (Py.VList items)
| occurs_key (items : list (string * Py.value)) (v : Py.value) :
    In (s, v) items -> occurs s (Py.VDict items)
| occurs_value (items : list (string * Py.value)) (k : string) (v : Py.value) :
    In (k, v) items -> occurs s v -> occurs s (Py.VDict items).

End Content.

(** ** Exceptions of the built-ins: [complete] with its error outcome *)

Module Raising.

Import MockLLMProvider.

(** The limits of the interpreter that [str] meets.  [max_str_digits] is
    [sys.get_int_max_str_digits()]: 4300 unless changed, 0 for no limit.
    [max_depth] is the number of nested lists and dicts [repr] can still
    enter at the call before the recursion limit is reached. *)
Record limits : Type := {
  max_str_digits : nat;
  max_depth : nat
}.

Inductive exn : Type :=
| ValueError
| RecursionError.

Inductive outcome (A : Type) : Type :=
| Returned (a : A)
| Raised (e : exn).

Arguments Returned {A} a.
Arguments Raised {A} e.

(** [z] has at most [d] decimal digits (the sign is not counted), or
    there is no limit. *)
Definition digits_within (d : nat) (z : Z) : bool :=
  (d =? 0)%nat || (Z.abs z <? 10 ^ Z.of_nat d).

(** [str(n)] for an [int]: [ValueError] beyond the digit limit. *)
Definition str_int_or_raise (d : nat) (z : Z) : outcome string :=
  if digits_within d z then Returned (Py.str_int z) else Raised ValueError.

(** The parts of a container, in order: the first exception wins. *)
Fixpoint sequence (parts : list (outcome string)) : outcome (list string) :=
  match parts with
  | [] => Returned []
  | Raised e :: _ => Raised e
  | Returned s :: rest =>
      match sequence rest with
      | Raised e => Raised e
      | Returned ss => Returned (s :: ss)
      end
  end.

(** [repr(v)] with [b] levels of nesting left: [RecursionError] when a
    container is entered with none left, [ValueError] at an [int] beyond
    the digit limit. *)
Fixpoint repr_or_raise (d b : nat) (v : Py.value) {struct v} : outcome string :=
  match v with
  | Py.VInt z => str_int_or_raise d z
  | Py.VList items =>
      match b with
      | O => Raised RecursionError
      | S b' =>
          match sequence (map (repr_or_raise d b') items) with
          | Raised e => Raised e
          | Returned parts => Returned ("[" ++ Py.join ", " parts ++ "]")
          end
      end
  | Py.VDict items =>
      match b with
      | O => Raised RecursionError
      | S b' =>
          match sequence
                  (map (fun kv : string * Py.value =>
                          let (k, v') := kv in
                          match repr_or_raise d b' v' with
                          | Raised e => Raised e
                          | Returned s => Returned (Py.repr_str k ++ ": " ++ s)
                          end) items) with
          | Raised e => Raised e
          | Returned parts => Returned ("{" ++ Py.join ", " parts ++ "}")
          end
      end
  | _ => Returned (Py.repr v)
  end.

(** [str(v)] *)
Definition str_or_raise (L : limits) (v : Py.value) : outcome string :=
  match v with
  | Py.VStr s => Returned s
  | _ => repr_or_raise (max_str_digits L) (max_depth L) v
  end.




(** Methods that can raise: the instance is kept as it is at the raise. *)
Definition E (A : Type) : Type := MockLLMProvider.t -> outcome A * MockLLMProvider.t.

Definition ret_e {A : Type} (a : A) : E A := fun self => (Returned a, self).

Definition bind_e {A B : Type} (m : E A) (k : A -> E B) : E B :=
  fun self =>
    match m self with
    | (Returned a, self') => k a self'
    | (Raised e, self') => (Raised e, self')
    end.

Definition lift {A : Type} (m : M A) : E A :=
  fun self => let (a, self') := m self in (Returned a, self').

Definition of_outcome {A : Type} (o : outcome A) : E A := fun self => (o, self).

(** The loop over [reversed(messages)] of [complete], with [str] raising. *)
Fixpoint scan_reversed_or_raise (L : limits) (reversed : list Py.dict)
  : outcome string :=
  match reversed with
  | [] => Returned EmptyString
  | msg :: rest =>
      if Py.eq_str (Py.get msg "role") "user"
      then str_or_raise L (Py.get_default msg "content" (Py.VStr EmptyString))
      else scan_reversed_or_raise L rest
  end.

(** [_generate_contextual_response], whose fallback formats the counter. *)
Definition _generate_contextual_response_or_raise (L : limits)
    (user_message system : string) : E string :=
  bind_e (lift get_self) (fun self =>
  let combined := Py.lower (user_message ++ system) in
  if Py.contains "search" combined then ret_e search_response
  else if Py.contains "summar" combined then ret_e summary_response
  else if Py.contains "parse" combined || Py.contains "extract" combined
  then ret_e parsed_response
  else if Py.contains "evaluat" combined || Py.contains "quality" combined
  then ret_e evaluation_response
  else if Py.contains "write" combined || Py.contains "report" combined
  then ret_e report_response
  else
    bind_e (of_outcome (str_int_or_raise (max_str_digits L) (_call_count self)))
      (fun number =>
         ret_e ("[Mock] Processed request (call #" ++ number ++ "). "
                ++ "This is a mock response for testing without API calls."))).

(** [complete], statement by statement, with the exceptions of [str]. *)
Definition complete_or_raise (L : limits) (messages : list Py.dict)
    (system : string) (tools : option (list Tool.t)) (max_tokens : Z)
    (response_format : option Py.dict) (json_mode : bool) : E LLMResponse.t :=
  bind_e (lift incr_call_count) (fun _ =>
  bind_e (of_outcome (scan_reversed_or_raise L (rev messages))) (fun last_message =>
  bind_e (lift get_self) (fun self =>
  bind_e (if Py.truthy (default_response self)
          then ret_e (match default_response self with
                      | Some r => r
                      | None => EmptyString
                      end)
          else if json_mode then ret_e json_response
          else _generate_contextual_response_or_raise L last_message system)
    (fun content =>
  bind_e (of_outcome (str_or_raise L (Py.VList (map Py.VDict messages))))
    (fun serialized =>
  bind_e (lift get_self) (fun self =>
  ret_e {| LLMResponse.content := content;
           LLMResponse.model := model self;
           LLMResponse.input_tokens := Py.len serialized / 4;
           LLMResponse.output_tokens := Py.len content / 4;
           LLMResponse.stop_reason := "end_turn";
           LLMResponse.raw_response :=
             Py.VDict [("mock", Py.VBool true);
                       ("call_count", Py.VInt (_call_count self))] |})))))).

(** Induction on values, with the hypothesis on every item of a list and
    every value of a dict. *)
Section ValueInduction.

Variable P : Py.value -> Prop.
Hypothesis HNone : P Py.VNone.
Hypothesis HBool : forall b, P (Py.VBool b).
Hypothesis HInt : forall z, P (Py.VInt z).
Hypothesis HStr : forall s, P (Py.VStr s).
Hypothesis HList : forall items, Forall P items -> P (Py.VList items).
Hypothesis HDict :
  forall items, Forall (fun kv : string * Py.value => P (snd kv)) items ->
                P (Py.VDict items).


End ValueInduction.

End Raising.

(** * Properties *)

Import MockLLMProvider.

(** ** Sanity checks of the built-ins against Python *)

Example repr_plain : Py.repr_str "user" = "'user'".
Proof. reflexivity. Qed.

Example repr_with_squote :
  Py.repr_str "it's" = String Py.dquote ("it's" ++ String Py.dquote EmptyString).
Proof. reflexivity. Qed.

Example repr_message_list :
  Py.repr (Py.VList [Py.VDict [("role", Py.VStr "user"); ("content", Py.VStr "Hello")]])
  = "[{'role': 'user', 'content': 'Hello'}]".
Proof. reflexivity. Qed.

Example lower_mixed : Py.lower "Search THE Web" = "search the web".
Proof. reflexivity. Qed.

Example contains_inside : Py.contains "summar" "please summarize" = true.
Proof. reflexivity. Qed.

Example json_response_length : Py.len json_response = 63.
Proof. reflexivity. Qed.

Example docstring_example :
  LLMResponse.content
    (result (complete [[("role", Py.VStr "user"); ("content", Py.VStr "Hello")]]
               EmptyString None 1024 None false (__init__ "mock-model" None)))
  = "[Mock] Processed request (call #1). This is a mock response for testing without API calls.".
Proof. reflexivity. Qed.

(** ** Substrings *)

Section Substrings.

Lemma startswith_spec (sub s : string) :
  Py.startswith s sub = true <-> exists post, s = sub ++ post.
Proof.
  revert s; induction sub as [|a sub IH]; intros s; simpl.
  - split; [intros _; now exists s | now destruct s].
  - destruct s as [|b s]; simpl.
    + split; [discriminate | intros [post H]; discriminate].
    + rewrite andb_true_iff, IH. split.
      * intros [Hab [post ->]]. apply Ascii.eqb_eq in Hab; subst b.
        now exists post.
      * intros [post H]. injection H as -> ->. split.
        -- apply Ascii.eqb_refl.
        -- now exists post.
Qed.

Lemma contains_spec (sub s : string) :
  Py.contains sub s = true <-> exists pre post, s = pre ++ sub ++ post.
Proof.
  induction s as [|b s IH].
  - cbn [Py.contains]. rewrite orb_false_r, startswith_spec. split.
    + intros [post H]. now exists EmptyString, post.
    + intros [[|c pre] [post H]]; [now exists post | discriminate].
  - cbn [Py.contains]. rewrite orb_true_iff, startswith_spec, IH. split.
    + intros [[post H] | [pre [post H]]].
      * now exists EmptyString, post.
      * exists (String b pre), post. simpl. now rewrite H.
    + intros [[|c pre] [post H]].
      * left. now exists post.
      * right. simpl in H. injection H as -> ->. now exists pre, post.
Qed.

Lemma append_assoc (a b c : string) : (a ++ b) ++ c = a ++ b ++ c.
Proof. induction a as [|x a IH]; simpl; [reflexivity | now rewrite IH]. Qed.

Lemma contains_refl (s : string) : Py.contains s s = true.
Proof.
  apply contains_spec. exists EmptyString, EmptyString. simpl.
  induction s as [|x s IH]; simpl; [reflexivity | now rewrite <- IH].
Qed.

Lemma contains_app_r (sub a b : string) :
  Py.contains sub b = true -> Py.contains sub (a ++ b) = true.
Proof.
  rewrite !contains_spec. intros [pre [post ->]].
  exists (a ++ pre), post. now rewrite append_assoc.
Qed.

Lemma contains_app_l (sub a b : string) :
  Py.contains sub a = true -> Py.contains sub (a ++ b) = true.
Proof.
  rewrite !contains_spec. intros [pre [post ->]].
  exists pre, (post ++ b). now rewrite !append_assoc.
Qed.

Lemma contains_trans (a b c : string) :
  Py.contains a b = true -> Py.contains b c = true -> Py.contains a c = true.
Proof.
  intros Hab Hbc. apply contains_spec in Hbc as [pre [post ->]].
  apply contains_app_r, contains_app_l, Hab.
Qed.

End Substrings.

(** ** The methods, unfolded *)

Section Unfolding.

Lemma first_match_chain (combined : string) :
  Spec.first_match Spec.priority_table combined =
  if Py.contains "search" combined then Some search_response
  else if Py.contains "summar" combined then Some summary_response
  else if Py.contains "parse" combined || Py.contains "extract" combined
  then Some parsed_response
  else if Py.contains "evaluat" combined || Py.contains "quality" combined
  then Some evaluation_response
  else if Py.contains "write" combined || Py.contains "report" combined
  then Some report_response
  else None.
Proof.
  unfold Spec.priority_table. cbn [Spec.first_match Spec.matches existsb].
  rewrite !orb_false_r. reflexivity.
Qed.

Lemma generate_eq (s : MockLLMProvider.t) (user_message system : string) :
  _generate_contextual_response user_message system s =
  (Spec.classify (Py.lower (user_message ++ system)) (_call_count s), s).
Proof.
  unfold Spec.classify. rewrite first_match_chain.
  unfold _generate_contextual_response, bind, get_self, ret.
  repeat match goal with
         | |- context [if ?b then _ else _] => destruct b
         end; reflexivity.
Qed.

Variable self : MockLLMProvider.t.

Lemma complete_eq (messages : list Py.dict) (system : string)
    (tools : option (list Tool.t)) (max_tokens : Z)
    (response_format : option Py.dict) (json_mode : bool) :
  complete messages system tools max_tokens response_format json_mode self =
  (let content := chosen_content (counted self) messages system json_mode in
   {| LLMResponse.content := content;
      LLMResponse.model := model self;
      LLMResponse.input_tokens :=
        Py.len (Py.str (Py.VList (map Py.VDict messages))) / 4;
      LLMResponse.output_tokens := Py.len content / 4;
      LLMResponse.stop_reason := "end_turn";
      LLMResponse.raw_response :=
        Py.VDict [("mock", Py.VBool true);
                  ("call_count", Py.VInt (_call_count self + 1))] |},
   counted self).
Proof.
  unfold complete, chosen_content, incr_call_count, bind, get_self,
    set_call_count, ret, counted.
  cbn [model default_response _call_count].
  destruct (Py.truthy (default_response self)); [reflexivity|].
  destruct json_mode; [reflexivity|].
  rewrite generate_eq. reflexivity.
Qed.

End Unfolding.

Lemma complete_with_tools_eq (self : MockLLMProvider.t) (messages : list Py.dict)
    (system : string) (tools : option (list Tool.t))
    (tool_executor : ToolExecutor) (max_iterations : Z) :
  complete_with_tools messages system tools tool_executor max_iterations self =
  (let content := tools_content messages tools in
   {| LLMResponse.content := content;
      LLMResponse.model := model self;
      LLMResponse.input_tokens :=
        Py.len (Py.str (Py.VList (map Py.VDict messages))) / 4;
      LLMResponse.output_tokens := Py.len content / 4;
      LLMResponse.stop_reason := "end_turn";
      LLMResponse.raw_response :=
        Py.VDict [("mock", Py.VBool true);
                  ("tools_available",
                   Py.VList (map Py.VStr (tool_names_of tools)))] |},
   counted self).
Proof. reflexivity. Qed.

Lemma len_div4_nonneg (s : string) : 0 <= Py.len s / 4.
Proof. unfold Py.len. apply Z.div_pos; lia. Qed.

Lemma truthy_some (r : string) : r <> EmptyString -> Py.truthy (Some r) = true.
Proof. destruct r; [congruence | reflexivity]. Qed.

(** ** The override and JSON mode *)

(** C1 (amended): when a non-empty override response was configured at
    construction, the content returned by [complete] is that override, for
    every message sequence, system string and [json_mode]. *)
Theorem complete_override_wins (self : MockLLMProvider.t)
    (messages : list Py.dict) (system : string) (tools : option (list Tool.t))
    (max_tokens : Z) (response_format : option Py.dict) (json_mode : bool)
    (r : string) :
  default_response self = Some r ->
  r <> EmptyString ->
  LLMResponse.content
    (result (complete messages system tools max_tokens response_format json_mode self))
  = r.
Proof.
  intros Hdr Hr. rewrite complete_eq. unfold result, chosen_content; simpl.
  rewrite Hdr, (truthy_some r Hr). reflexivity.
Qed.

Lemma complete_override_wins_witness :
  LLMResponse.content
    (result (complete hello "search the web" None 1024 None true
               (__init__ "mock-model" (Some "canned"))))
  = "canned".
Proof.
  apply (complete_override_wins (__init__ "mock-model" (Some "canned"))
           hello "search the web" None 1024 None true "canned").
  - reflexivity.
  - discriminate.
Defined.

(** C1 fails as stated: an override configured as the empty text does not
    determine the content; in JSON mode the fixed JSON object is returned. *)
Lemma complete_empty_override_loses :
  default_response (__init__ "mock-model" (Some EmptyString)) = Some EmptyString
  /\ LLMResponse.content
       (result (complete hello EmptyString None 1024 None true
                  (__init__ "mock-model" (Some EmptyString))))
     = json_response
  /\ LLMResponse.content
       (result (complete hello EmptyString None 1024 None true
                  (__init__ "mock-model" (Some EmptyString))))
     <> EmptyString.
Proof. repeat split; discriminate. Qed.

Lemma json_response_loads :
  Json.loads json_response
  = Some (Json.JObject [("status", Json.JString "success");
                        ("mock", Json.JBool true);
                        ("message", Json.JString "Mock response")]).
Proof. vm_compute. reflexivity. Qed.

Lemma loads_valid (s : string) (v : Json.json) :
  Json.loads s = Some v -> Json.valid s.
Proof.
  unfold Json.loads, Json.valid. intros H.
  destruct (Json.parse_value _ s) as [[v' rest]|] eqn:E; [|discriminate].
  exists (2 * String.length s + 2)%nat, v', rest. split; [exact E|].
  destruct (Json.skip_ws rest); [reflexivity | discriminate].
Qed.

(** C2 (amended): with [json_mode=True] and no non-empty override
    configured, the content returned by [complete] is syntactically valid
    JSON text: the fixed object with the members status, mock, message. *)
Theorem complete_json_mode_valid (self : MockLLMProvider.t)
    (messages : list Py.dict) (system : string) (tools : option (list Tool.t))
    (max_tokens : Z) (response_format : option Py.dict) :
  Py.truthy (default_response self) = false ->
  let content :=
    LLMResponse.content
      (result (complete messages system tools max_tokens response_format true self)) in
  content = json_response
  /\ Json.valid content
  /\ Json.loads content
     = Some (Json.JObject [("status", Json.JString "success");
                           ("mock", Json.JBool true);
                           ("message", Json.JString "Mock response")]).
Proof.
  intros Hdr. rewrite complete_eq. unfold result, chosen_content; simpl.
  rewrite Hdr. split; [reflexivity|]. split.
  - exact (loads_valid _ _ json_response_loads).
  - exact json_response_loads.
Qed.

Lemma complete_json_mode_valid_witness :
  Json.valid
    (LLMResponse.content
       (result (complete hello "be brief" None 1024 None true
                  (__init__ "mock-model" None)))).
Proof.
  apply (complete_json_mode_valid (__init__ "mock-model" None)
           hello "be brief" None 1024 None).
  reflexivity.
Defined.

(** C2 fails as stated: with the override "hello" configured, [complete]
    in JSON mode returns "hello", which no amount of fuel parses as JSON. *)
Lemma complete_json_mode_override_invalid :
  LLMResponse.content
    (result (complete hello EmptyString None 1024 None true
               (__init__ "mock-model" (Some "hello"))))
  = "hello"
  /\ ~ Json.valid
        (LLMResponse.content
           (result (complete hello EmptyString None 1024 None true
                      (__init__ "mock-model" (Some "hello")))))
  /\ Json.loads "hello" = None.
Proof.
  split; [reflexivity|]. split; [|reflexivity].
  intros [fuel [v [rest [H _]]]]. change (Json.parse_value fuel "hello" = Some (v, rest)) in H.
  destruct fuel; discriminate.
Qed.

(** ** The priority order of the classification *)

Lemma first_match_earliest (combined : string)
    (earlier : list (list string * string)) (keys : list string)
    (response : string) (later : list (list string * string)) :
  matches keys combined = true ->
  Forall (fun e => matches (fst e) combined = false) earlier ->
  first_match (earlier ++ (keys, response) :: later) combined = Some response.
Proof.
  intros Hk Hearlier. induction Hearlier as [|[ks r] earlier Hks _ IH]; simpl.
  - now rewrite Hk.
  - simpl in Hks. now rewrite Hks.
Qed.

Lemma search_summary_differ : search_response <> summary_response.
Proof. discriminate. Qed.

(** C3: without an override and outside JSON mode, a combined text that
    contains both "search" and "summar" gets the search response and not
    the summary response; in general the earliest-listed category of the
    priority table with a matching substring determines the content. *)
Theorem complete_priority_order (self : MockLLMProvider.t)
    (messages : list Py.dict) (system : string) (tools : option (list Tool.t))
    (max_tokens : Z) (response_format : option Py.dict) :
  Py.truthy (default_response self) = false ->
  let combined := Py.lower (last_user_message (fun s => s) messages ++ system) in
  let content :=
    LLMResponse.content
      (result (complete messages system tools max_tokens response_format false self)) in
  (Py.contains "search" combined = true ->
   Py.contains "summar" combined = true ->
   content = search_response /\ content <> summary_response)
  /\ (forall (earlier : list (list string * string)) (keys : list string)
             (response : string) (later : list (list string * string)),
        priority_table = (earlier ++ (keys, response) :: later)%list ->
        matches keys combined = true ->
        Forall (fun e => matches (fst e) combined = false) earlier ->
        content = response).
Proof.
  intros Hdr combined content.
  assert (Hc : content = classify combined (_call_count self + 1)).
  { unfold content. rewrite complete_eq. unfold result, chosen_content; simpl.
    now rewrite Hdr. }
  split.
  - intros Hsearch _. rewrite Hc. unfold classify.
    rewrite first_match_chain, Hsearch.
    split; [reflexivity | exact search_summary_differ].
  - intros earlier keys response later Htable Hk Hearlier.
    rewrite Hc. unfold classify. rewrite Htable.
    now rewrite (first_match_earliest combined earlier keys response later Hk Hearlier).
Qed.

Lemma complete_priority_order_witness :
  LLMResponse.content
    (result (complete
               [[("role", Py.VStr "user");
                 ("content", Py.VStr "Search the web and SUMMARIZE it")]]
               "You are a researcher." None 1024 None false
               (__init__ "mock-model" None)))
  = search_response.
Proof.
  destruct (complete_priority_order (__init__ "mock-model" None)
              [[("role", Py.VStr "user");
                ("content", Py.VStr "Search the web and SUMMARIZE it")]]
              "You are a researcher." None 1024 None eq_refl) as [H _].
  apply H; reflexivity.
Defined.

(** ** The last user message *)

Lemma scan_reversed_none (post : string -> string) (l : list Py.dict) :
  Forall (fun m => is_user m = false) l ->
  scan_reversed post l = EmptyString.
Proof.
  induction 1 as [|m l Hm _ IH]; simpl; [reflexivity|].
  unfold is_user in Hm. now rewrite Hm.
Qed.

Lemma scan_reversed_first (post : string -> string)
    (l1 : list Py.dict) (m : Py.dict) (l2 : list Py.dict) :
  Forall (fun m => is_user m = false) l1 ->
  is_user m = true ->
  scan_reversed post (l1 ++ m :: l2) = post (content_text m).
Proof.
  intros H1 Hm. induction H1 as [|m' l1 Hm' _ IH]; simpl.
  - unfold is_user in Hm. now rewrite Hm.
  - unfold is_user in Hm'. now rewrite Hm'.
Qed.

Lemma last_user_message_spec (post : string -> string)
    (messages : list Py.dict) (o : option Py.dict) :
  most_recent_user messages o ->
  last_user_message post messages
  = match o with
    | Some m => post (content_text m)
    | None => EmptyString
    end.
Proof.
  unfold last_user_message. intros [ms Hnone | earlier m later Hm Hlater].
  - apply scan_reversed_none, Forall_rev, Hnone.
  - rewrite rev_app_distr. simpl. rewrite <- app_assoc. simpl.
    apply scan_reversed_first; [apply Forall_rev, Hlater | exact Hm].
Qed.

Lemma most_recent_user_total (messages : list Py.dict) :
  exists o, most_recent_user messages o.
Proof.
  induction messages as [|m ms [o Ho]].
  - exists None. constructor. constructor.
  - destruct Ho as [ms Hnone | earlier m' later Hm' Hlater].
    + destruct (is_user m) eqn:Hm.
      * exists (Some m). apply (mru_some [] m ms Hm Hnone).
      * exists None. constructor. now constructor.
    + exists (Some m'). apply (mru_some (m :: earlier) m' later Hm' Hlater).
Qed.

(** C7: without an override and outside JSON mode, the content of
    [complete] is the classification of the lowercased concatenation of the
    text of the most recent message with role "user" (the empty text when
    there is none, which is not an error) and the system string. *)
Theorem complete_classifies_last_user (self : MockLLMProvider.t)
    (messages : list Py.dict) (system : string) (tools : option (list Tool.t))
    (max_tokens : Z) (response_format : option Py.dict)
    (o : option Py.dict) :
  Py.truthy (default_response self) = false ->
  most_recent_user messages o ->
  LLMResponse.content
    (result (complete messages system tools max_tokens response_format false self))
  = classify (Py.lower (text_of o ++ system)) (_call_count self + 1).
Proof.
  intros Hdr Ho. rewrite complete_eq. unfold result, chosen_content; simpl.
  rewrite Hdr. rewrite (last_user_message_spec (fun s => s) messages o Ho).
  destruct o; reflexivity.
Qed.

Lemma complete_classifies_last_user_witness :
  LLMResponse.content
    (result (complete
               [[("role", Py.VStr "user"); ("content", Py.VStr "Write a REPORT")];
                [("role", Py.VStr "user"); ("content", Py.VStr "Evaluate this")];
                [("role", Py.VStr "assistant"); ("content", Py.VStr "search")]]
               " Quality first" None 1024 None false
               (__init__ "mock-model" None)))
  = classify (Py.lower ("Evaluate this" ++ " Quality first")) 1.
Proof.
  apply (complete_classifies_last_user (__init__ "mock-model" None)
           [[("role", Py.VStr "user"); ("content", Py.VStr "Write a REPORT")];
            [("role", Py.VStr "user"); ("content", Py.VStr "Evaluate this")];
            [("role", Py.VStr "assistant"); ("content", Py.VStr "search")]]
           " Quality first" None 1024 None
           (Some [("role", Py.VStr "user"); ("content", Py.VStr "Evaluate this")])).
  - reflexivity.
  - apply (mru_some
             [[("role", Py.VStr "user"); ("content", Py.VStr "Write a REPORT")]]
             [("role", Py.VStr "user"); ("content", Py.VStr "Evaluate this")]
             [[("role", Py.VStr "assistant"); ("content", Py.VStr "search")]]).
    + reflexivity.
    + repeat constructor.
Defined.

(** ** The call counter *)

Lemma run_call_after (c : call) (self : MockLLMProvider.t) :
  after (run_call c self) = counted self.
Proof.
  destruct c; cbn [run_call].
  - now rewrite complete_eq.
  - now rewrite complete_with_tools_eq.
Qed.

Lemma run_calls_cons (c : call) (cs : list call) (self : MockLLMProvider.t) :
  after (run_calls (c :: cs) self) = after (run_calls cs (after (run_call c self))).
Proof.
  simpl. unfold bind, ret, after.
  destruct (run_call c self) as [r self1]. simpl.
  destruct (run_calls cs self1) as [rs self2]. reflexivity.
Qed.

Lemma run_calls_count (cs : list call) (self : MockLLMProvider.t) :
  _call_count (after (run_calls cs self))
  = _call_count self + Z.of_nat (List.length cs).
Proof.
  revert self. induction cs as [|c cs IH]; intros self.
  - simpl. lia.
  - rewrite run_calls_cons, IH, run_call_after.
    cbn [counted _call_count List.length]. lia.
Qed.

Lemma run_calls_results (cs : list call) (self : MockLLMProvider.t) :
  List.length (result (run_calls cs self)) = List.length cs.
Proof.
  revert self. induction cs as [|c cs IH]; intros self; [reflexivity|].
  simpl. unfold bind, ret, result.
  destruct (run_call c self) as [r self1].
  specialize (IH self1). unfold result in IH.
  destruct (run_calls cs self1) as [rs self2]. simpl in *. now rewrite IH.
Qed.

(** C5: from a freshly constructed backend, N calls of [complete] or
    [complete_with_tools] without a reset leave the counter at exactly N;
    [reset] sets it to 0 (and N further calls bring it to N again); each
    call adds exactly one; reading [call_count] and classifying a text
    leave the instance as it was, and a call changes nothing but the
    counter. *)
Theorem call_count_counts_calls :
  (forall (model_name : string) (override : option string) (cs : list call),
      _call_count (after (run_calls cs (__init__ model_name override)))
      = Z.of_nat (List.length cs))
  /\ (forall self : MockLLMProvider.t, _call_count (after (reset self)) = 0)
  /\ (forall (self : MockLLMProvider.t) (cs : list call),
        _call_count (after (run_calls cs (after (reset self))))
        = Z.of_nat (List.length cs))
  /\ (forall (self : MockLLMProvider.t) (c : call),
        _call_count (after (run_call c self)) = _call_count self + 1
        /\ model (after (run_call c self)) = model self
        /\ default_response (after (run_call c self)) = default_response self)
  /\ (forall self : MockLLMProvider.t,
        after (call_count self) = self
        /\ result (call_count self) = _call_count self)
  /\ (forall (self : MockLLMProvider.t) (user_message system : string),
        after (_generate_contextual_response user_message system self) = self).
Proof.
  split; [|split; [|split; [|split; [|split]]]].
  - intros model_name override cs. rewrite run_calls_count. reflexivity.
  - reflexivity.
  - intros self cs. rewrite run_calls_count. reflexivity.
  - intros self c. rewrite run_call_after. repeat split.
  - intros self. split; reflexivity.
  - intros self user_message system. now rewrite generate_eq.
Qed.

(** ** Token accounting *)

(** C6: for both operations, [input_tokens] is the length of the
    string-serialized message sequence divided by 4 (integer division),
    [output_tokens] is the length of the returned content divided by 4,
    and neither is negative. *)
Theorem token_accounting (self : MockLLMProvider.t) (messages : list Py.dict)
    (system : string) (tools : option (list Tool.t)) (max_tokens : Z)
    (response_format : option Py.dict) (json_mode : bool)
    (tool_executor : ToolExecutor) (max_iterations : Z) :
  let serialized := Py.str (Py.VList (map Py.VDict messages)) in
  let r1 := result (complete messages system tools max_tokens response_format
                      json_mode self) in
  let r2 := result (complete_with_tools messages system tools tool_executor
                      max_iterations self) in
  (LLMResponse.input_tokens r1 = Py.len serialized / 4
   /\ LLMResponse.output_tokens r1 = Py.len (LLMResponse.content r1) / 4
   /\ 0 <= LLMResponse.input_tokens r1
   /\ 0 <= LLMResponse.output_tokens r1)
  /\ (LLMResponse.input_tokens r2 = Py.len serialized / 4
      /\ LLMResponse.output_tokens r2 = Py.len (LLMResponse.content r2) / 4
      /\ 0 <= LLMResponse.input_tokens r2
      /\ 0 <= LLMResponse.output_tokens r2).
Proof.
  intros serialized r1 r2. unfold r1, r2.
  rewrite complete_eq, complete_with_tools_eq. unfold result; simpl.
  repeat split; apply len_div4_nonneg.
Qed.

Example token_accounting_hello :
  LLMResponse.input_tokens
    (result (complete hello EmptyString None 1024 None false
               (__init__ "mock-model" None))) = 9
  /\ LLMResponse.output_tokens
       (result (complete hello EmptyString None 1024 None false
                  (__init__ "mock-model" None))) = 22.
Proof. split; reflexivity. Qed.

(** ** Totality *)

Section Exceptions.

Import Raising.














End Exceptions.




Example complete_raises_on_deep_nesting :
  Raising.complete_or_raise
    {| Raising.max_str_digits := 4300; Raising.max_depth := 3 |}
    [[("role", Py.VStr "assistant");
      ("content", Py.VList [Py.VList [Py.VStr "deep"]])]]
    EmptyString None 1024 None true (__init__ "mock-model" (Some "canned"))
  = (Raising.Raised Raising.RecursionError,
     {| model := "mock-model"; default_response := Some "canned"; _call_count := 1 |}).
Proof. vm_compute. reflexivity. Qed.

Example digits_within_examples :
  Raising.digits_within 3 999 = true
  /\ Raising.digits_within 3 (-999) = true
  /\ Raising.digits_within 3 1000 = false
  /\ Raising.digits_within 0 1000 = true.
Proof. repeat split. Qed.

(** ** The empty override *)

Lemma classify_nonempty (combined : string) (count : Z) :
  classify combined count <> EmptyString.
Proof.
  unfold classify. rewrite first_match_chain.
  repeat match goal with
         | |- context [if ?b then _ else _] => destruct b
         end; discriminate.
Qed.

(** C10: an override configured as the empty text is treated as no
    override: the whole result of [complete] is the one of an instance
    without override, the content is the fixed JSON object in JSON mode
    and the classified contextual response otherwise, and it is never the
    empty override. *)
Theorem complete_empty_override_ignored (self : MockLLMProvider.t)
    (messages : list Py.dict) (system : string) (tools : option (list Tool.t))
    (max_tokens : Z) (response_format : option Py.dict) (json_mode : bool) :
  default_response self = Some EmptyString ->
  let r := result (complete messages system tools max_tokens response_format
                     json_mode self) in
  r = result (complete messages system tools max_tokens response_format json_mode
                {| model := model self;
                   default_response := None;
                   _call_count := _call_count self |})
  /\ (json_mode = true -> LLMResponse.content r = json_response)
  /\ (json_mode = false ->
      LLMResponse.content r
      = result (_generate_contextual_response
                  (last_user_message (fun s => s) messages) system (counted self)))
  /\ LLMResponse.content r <> EmptyString.
Proof.
  intros Hdr r. unfold r. rewrite !complete_eq, generate_eq.
  unfold result, chosen_content; simpl. rewrite Hdr; simpl.
  split; [reflexivity|]. split; [|split].
  - now intros ->.
  - now intros ->.
  - destruct json_mode; [discriminate | apply classify_nonempty].
Qed.

Lemma complete_empty_override_ignored_witness :
  LLMResponse.content
    (result (complete hello "Parse the page" None 1024 None false
               (__init__ "mock-model" (Some EmptyString))))
  <> EmptyString.
Proof.
  apply (complete_empty_override_ignored
           (__init__ "mock-model" (Some EmptyString))
           hello "Parse the page" None 1024 None false).
  reflexivity.
Defined.

(** ** Repeated calls *)

Lemma length_append (a b : string) :
  String.length (a ++ b) = (String.length a + String.length b)%nat.
Proof. induction a as [|x a IH]; simpl; [reflexivity | now rewrite IH]. Qed.

Lemma append_inv_l (p a b : string) : p ++ a = p ++ b -> a = b.
Proof.
  induction p as [|x p IH]; simpl; intros H; [exact H|].
  injection H as H. now apply IH.
Qed.

Lemma append_inv_r (a b c : string) : a ++ c = b ++ c -> a = b.
Proof.
  revert b. induction a as [|x a IH]; intros [|y b] H; simpl in H.
  - reflexivity.
  - apply (f_equal String.length) in H. simpl in H.
    rewrite length_append in H. lia.
  - apply (f_equal String.length) in H. simpl in H.
    rewrite length_append in H. lia.
  - injection H as -> H. f_equal. now apply IH.
Qed.

Lemma to_int_not_nil (z : Z) :
  Z.to_int z <> Decimal.Pos Decimal.Nil /\ Z.to_int z <> Decimal.Neg Decimal.Nil.
Proof.
  destruct z as [|p|p]; simpl; split; try discriminate;
    intros [= H]; now apply (DecimalPos.Unsigned.to_uint_nonnil p).
Qed.

Lemma str_int_inj (a b : Z) : Py.str_int a = Py.str_int b -> a = b.
Proof.
  unfold Py.str_int. intros H.
  apply (f_equal NilZero.int_of_string) in H.
  destruct (to_int_not_nil a) as [Ha1 Ha2], (to_int_not_nil b) as [Hb1 Hb2].
  rewrite !NilZero.isi in H by assumption.
  injection H as H. now apply DecimalZ.to_int_inj.
Qed.

Lemma fallback_response_inj (a b : Z) :
  fallback_response a = fallback_response b -> a = b.
Proof.
  unfold fallback_response. intros H.
  apply append_inv_l, append_inv_r in H. now apply str_int_inj.
Qed.

Lemma classify_fallback (combined : string) (count : Z) :
  first_match priority_table combined = None ->
  classify combined count = fallback_response count.
Proof. unfold classify. now intros ->. Qed.

Lemma classify_matched (combined response : string) (count : Z) :
  first_match priority_table combined = Some response ->
  classify combined count = response.
Proof. unfold classify. now intros ->. Qed.

(** C9: without an override, two invocations of [complete] with the same
    arguments return the same content and the same [output_tokens] unless
    the input reaches the fallback branch; there the contents are equal
    exactly when the call counts are, so the second of two invocations in
    a row differs from the first. *)
Theorem complete_repeatable_except_fallback (self1 self2 : MockLLMProvider.t)
    (messages : list Py.dict) (system : string) (tools : option (list Tool.t))
    (max_tokens : Z) (response_format : option Py.dict) (json_mode : bool) :
  Py.truthy (default_response self1) = false ->
  Py.truthy (default_response self2) = false ->
  let call := complete messages system tools max_tokens response_format json_mode in
  (fallback_branch messages system json_mode = false ->
   LLMResponse.content (result (call self1)) = LLMResponse.content (result (call self2))
   /\ LLMResponse.output_tokens (result (call self1))
      = LLMResponse.output_tokens (result (call self2)))
  /\ (fallback_branch messages system json_mode = true ->
      (LLMResponse.content (result (call self1))
       = LLMResponse.content (result (call self2))
       <-> _call_count self1 = _call_count self2)
      /\ LLMResponse.content (result (call self1))
         <> LLMResponse.content (result (call (after (call self1))))).
Proof.
  intros H1 H2 call. unfold call. rewrite !complete_eq.
  unfold result, after, chosen_content, fallback_branch.
  cbn [fst snd LLMResponse.content LLMResponse.output_tokens counted
         default_response _call_count].
  rewrite H1, H2.
  set (combined := Py.lower (last_user_message (fun s => s) messages ++ system)).
  destruct json_mode; cbn [negb andb].
  - split; [intros _; split; reflexivity | discriminate].
  - destruct (first_match priority_table combined) as [response|] eqn:Hm.
    + split; [intros _ | discriminate].
      rewrite !(classify_matched combined response _ Hm). split; reflexivity.
    + split; [discriminate | intros _].
      rewrite !(classify_fallback combined _ Hm). split; [split|].
      * intros H. apply fallback_response_inj in H. lia.
      * intros ->. reflexivity.
      * intros H. apply fallback_response_inj in H. lia.
Qed.

Lemma complete_repeatable_except_fallback_witness :
  LLMResponse.content
    (result (complete hello EmptyString None 1024 None false
               (__init__ "mock-model" None)))
  <> LLMResponse.content
       (result (complete hello EmptyString None 1024 None false
                  (after (complete hello EmptyString None 1024 None false
                            (__init__ "mock-model" None))))).
Proof.
  destruct (complete_repeatable_except_fallback
              (__init__ "mock-model" None) (__init__ "mock-model" None)
              hello EmptyString None 1024 None false eq_refl eq_refl) as [_ H].
  apply H. reflexivity.
Defined.

Example repeated_fallback_contents :
  map LLMResponse.content
    (result (run_calls [Complete hello EmptyString None 1024 None false;
                        Complete hello EmptyString None 1024 None false]
               (__init__ "mock-model" None)))
  = ["[Mock] Processed request (call #1). This is a mock response for testing without API calls.";
     "[Mock] Processed request (call #2). This is a mock response for testing without API calls."].
Proof. reflexivity. Qed.

(** ** The tool loop *)

Lemma join_contains (sep p : string) (parts : list string) :
  In p parts -> Py.contains p (Py.join sep parts) = true.
Proof.
  induction parts as [|p0 rest IH]; intros Hin; [destruct Hin|].
  destruct rest as [|p1 rest].
  - destruct Hin as [-> | []]. apply contains_refl.
  - change (Py.join sep (p0 :: p1 :: rest))
      with (p0 ++ sep ++ Py.join sep (p1 :: rest)).
    destruct Hin as [-> | Hin].
    + apply contains_app_l, contains_refl.
    + apply contains_app_r, contains_app_r, IH, Hin.
Qed.

Lemma repr_list_contains (v : Py.value) (items : list Py.value) :
  In v items -> Py.contains (Py.repr v) (Py.str (Py.VList items)) = true.
Proof.
  intros Hin. cbn [Py.str Py.repr].
  apply (contains_app_r _ "["), contains_app_l, join_contains.
  now apply in_map.
Qed.

Lemma repr_char_verbatim (q c : ascii) :
  Py.printable c = true ->
  Ascii.eqb c q = false ->
  Ascii.eqb c Py.backslash = false ->
  Py.repr_char q c = String c EmptyString.
Proof.
  intros Hp Hq Hb. unfold Py.repr_char. rewrite Hq, Hb, Hp. cbn [orb].
  destruct (Ascii.eqb_spec c Py.tab) as [-> | _]; [discriminate Hp|].
  destruct (Ascii.eqb_spec c Py.newline) as [-> | _]; [discriminate Hp|].
  destruct (Ascii.eqb_spec c Py.creturn) as [-> | _]; [discriminate Hp|].
  reflexivity.
Qed.

Lemma repr_chars_verbatim (q : ascii) (s : string) :
  all_printable s = true ->
  Py.has_char q s = false ->
  Py.has_char Py.backslash s = false ->
  Py.repr_chars q s = s.
Proof.
  induction s as [|c s IH]; simpl; [reflexivity|].
  rewrite andb_true_iff, !orb_false_iff.
  intros [Hp Hall] [Hq Hqs] [Hb Hbs].
  rewrite (repr_char_verbatim q c Hp Hq Hb), (IH Hall Hqs Hbs). reflexivity.
Qed.

Lemma repr_str_verbatim (s : string) :
  verbatim s = true -> Py.contains s (Py.repr_str s) = true.
Proof.
  unfold verbatim. rewrite !andb_true_iff, !negb_true_iff.
  intros [[Hall Hb] Hquotes].
  assert (Hq : Py.has_char (Py.repr_quote s) s = false).
  { unfold Py.repr_quote.
    destruct (Py.has_char Py.squote s) eqn:Hs,
             (Py.has_char Py.dquote s) eqn:Hd; simpl in *; congruence. }
  unfold Py.repr_str. rewrite (repr_chars_verbatim _ s Hall Hq Hb).
  apply (contains_app_r s (String (Py.repr_quote s) EmptyString)),
    contains_app_l, contains_refl.
Qed.

Lemma tool_names_of_some (offered : list Tool.t) :
  tool_names_of (Some offered) = map Tool.name offered.
Proof. destruct offered; reflexivity. Qed.

Lemma tools_content_names (messages : list Py.dict) (offered : list Tool.t)
    (t : Tool.t) :
  In t offered ->
  Py.contains (Py.repr_str (Tool.name t)) (tools_content messages (Some offered))
  = true.
Proof.
  intros Hin. unfold tools_content. rewrite tool_names_of_some.
  apply contains_app_r, contains_app_l.
  apply (repr_list_contains (Py.VStr (Tool.name t))).
  rewrite map_map. apply (in_map (fun x => Py.VStr (Tool.name x))), Hin.
Qed.

(** C4: [complete_with_tools] returns one result whose content carries the
    serialized name of every offered tool (the name itself when [repr]
    writes it unchanged), whose stop reason is "end_turn", which is the
    same for every [tool_executor] and every [max_iterations] (the
    executor is never consulted), with the counter advanced by exactly
    one. *)
Theorem complete_with_tools_short_circuits (self : MockLLMProvider.t)
    (messages : list Py.dict) (system : string) (tools : option (list Tool.t))
    (tool_executor : ToolExecutor) (max_iterations : Z) :
  let out := complete_with_tools messages system tools tool_executor
               max_iterations self in
  (forall (offered : list Tool.t) (t : Tool.t),
      tools = Some offered ->
      In t offered ->
      Py.contains (Py.repr_str (Tool.name t)) (LLMResponse.content (result out))
      = true
      /\ (verbatim (Tool.name t) = true ->
          Py.contains (Tool.name t) (LLMResponse.content (result out)) = true))
  /\ LLMResponse.stop_reason (result out) = "end_turn"
  /\ (forall (other_executor : ToolExecutor) (other_bound : Z),
        complete_with_tools messages system tools other_executor other_bound self
        = out)
  /\ _call_count (after out) = _call_count self + 1.
Proof.
  intros out. unfold out. rewrite complete_with_tools_eq.
  unfold result, after; cbn [fst snd LLMResponse.content LLMResponse.stop_reason].
  split; [|split; [reflexivity | split; [reflexivity | reflexivity]]].
  intros offered t -> Hin.
  pose proof (tools_content_names messages offered t Hin) as Hrepr.
  split; [exact Hrepr|].
  intros Hv. exact (contains_trans _ _ _ (repr_str_verbatim _ Hv) Hrepr).
Qed.

Lemma complete_with_tools_short_circuits_witness :
  Py.contains "calculator"
    (LLMResponse.content
       (result (complete_with_tools hello "Use the tools." (Some two_tools)
                  failing_executor 10 (__init__ "mock-model" None))))
  = true.
Proof.
  destruct (complete_with_tools_short_circuits (__init__ "mock-model" None)
              hello "Use the tools." (Some two_tools) failing_executor 10)
    as [H _].
  apply (H two_tools (Tool.mk "calculator" Py.VNone)).
  - reflexivity.
  - right. left. reflexivity.
  - reflexivity.
Defined.

Example complete_with_tools_two_tools :
  LLMResponse.content
    (result (complete_with_tools hello "Use the tools." (Some two_tools)
               failing_executor 10 (__init__ "mock-model" None)))
  = "[Mock] Processed with tools: ['web_search', 'calculator']. Context: Hello...".
Proof. reflexivity. Qed.

(** * Further properties of the provider *)

(** ** Letter case and the place of a keyword *)

Lemma lower_app (a b : string) : Py.lower (a ++ b) = Py.lower a ++ Py.lower b.
Proof. induction a as [|c a IH]; simpl; [reflexivity | now rewrite IH]. Qed.

Lemma contains_lower (k s : string) :
  Py.contains k s = true -> Py.contains (Py.lower k) (Py.lower s) = true.
Proof.
  rewrite !contains_spec. intros [pre [post ->]].
  exists (Py.lower pre), (Py.lower post). now rewrite !lower_app.
Qed.

Lemma matches_in (keys : list string) (key combined : string) :
  In key keys -> Py.contains key combined = true -> matches keys combined = true.
Proof.
  intros Hin Hc. unfold matches. apply existsb_exists. now exists key.
Qed.

Lemma first_match_some (table : list (list string * string)) (combined : string)
    (keys : list string) (response : string) :
  In (keys, response) table ->
  matches keys combined = true ->
  exists r, first_match table combined = Some r /\ In r (map snd table).
Proof.
  induction table as [|[ks r0] table IH]; intros Hin Hm; [destruct Hin|].
  simpl. destruct (matches ks combined) eqn:Hks.
  - exists r0. split; [reflexivity | now left].
  - destruct Hin as [Heq | Hin].
    + injection Heq as -> ->. congruence.
    + destruct (IH Hin Hm) as [r [Hr Hr']]. exists r. split; [exact Hr | now right].
Qed.

Lemma complete_classifies_last_user_text (self : MockLLMProvider.t)
    (messages : list Py.dict) (system : string) (tools : option (list Tool.t))
    (max_tokens : Z) (response_format : option Py.dict) (o : option Py.dict) :
  Py.truthy (default_response self) = false ->
  most_recent_user messages o ->
  LLMResponse.content
    (result (complete messages system tools max_tokens response_format false self))
  = classify (Py.lower (text_of o ++ system)) (_call_count self + 1).
Proof.
  intros Hdr Ho. rewrite complete_eq. unfold result, chosen_content; simpl.
  rewrite Hdr. rewrite (last_user_message_spec (fun s => s) messages o Ho).
  destruct o; reflexivity.
Qed.

(** X1: the classification ignores letter case and the boundary between
    the user text and the system string: a keyword of the table, written in
    any mix of cases anywhere in the concatenation of the last user text and
    the system string (inside either, or straddling the two), selects a
    canned category response and never the fallback; for "search" it is
    the search response. *)
Theorem keyword_in_any_case (self : MockLLMProvider.t) (messages : list Py.dict)
    (system : string) (tools : option (list Tool.t)) (max_tokens : Z)
    (response_format : option Py.dict) (o : option Py.dict)
    (keys : list string) (response key k : string) :
  Py.truthy (default_response self) = false ->
  most_recent_user messages o ->
  In (keys, response) priority_table ->
  In key keys ->
  Py.lower k = key ->
  Py.contains k (text_of o ++ system) = true ->
  let content :=
    LLMResponse.content
      (result (complete messages system tools max_tokens response_format false self)) in
  In content (map snd priority_table)
  /\ content <> fallback_response (_call_count self + 1)
  /\ (key = "search" -> content = search_response).
Proof.
  intros Hdr Ho Hrow Hkey Hk Hc content.
  assert (Hcontent : content
                     = classify (Py.lower (text_of o ++ system)) (_call_count self + 1)).
  { apply complete_classifies_last_user_text; assumption. }
  assert (Hin : Py.contains key (Py.lower (text_of o ++ system)) = true).
  { rewrite <- Hk. now apply contains_lower. }
  pose proof (matches_in keys key _ Hkey Hin) as Hm.
  destruct (first_match_some priority_table _ keys response Hrow Hm) as [r [Hr Hr']].
  rewrite Hcontent. unfold classify. rewrite Hr.
  split; [exact Hr'|]. split.
  - simpl in Hr'. unfold fallback_response.
    destruct Hr' as [<- | [<- | [<- | [<- | [<- | []]]]]]; discriminate.
  - intros ->. rewrite first_match_chain in Hr. rewrite Hin in Hr. congruence.
Qed.

Lemma keyword_in_any_case_witness :
  LLMResponse.content
    (result (complete [[("role", Py.VStr "user"); ("content", Py.VStr "Please sEa")]]
               "Rch the web" None 1024 None false (__init__ "mock-model" None)))
  = search_response.
Proof.
  destruct (keyword_in_any_case (__init__ "mock-model" None)
              [[("role", Py.VStr "user"); ("content", Py.VStr "Please sEa")]]
              "Rch the web" None 1024 None
              (Some [("role", Py.VStr "user"); ("content", Py.VStr "Please sEa")])
              ["search"] search_response "search" "sEaRch") as [_ [_ H]].
  - reflexivity.
  - apply (mru_some [] [("role", Py.VStr "user"); ("content", Py.VStr "Please sEa")] []).
    + reflexivity.
    + constructor.
  - left. reflexivity.
  - left. reflexivity.
  - reflexivity.
  - reflexivity.
  - apply H. reflexivity.
Defined.

(** ** The shape of the content *)

Lemma classify_prefix (combined : string) (count : Z) :
  Py.startswith (classify combined count) "[Mock] " = true.
Proof.
  unfold classify. rewrite first_match_chain.
  repeat match goal with
         | |- context [if ?b then _ else _] => destruct b
         end; reflexivity.
Qed.

Lemma truthy_nonempty (o : option string) :
  Py.truthy o = true ->
  match o with Some r => r | None => EmptyString end <> EmptyString.
Proof. destruct o as [[|c r]|]; simpl; congruence. Qed.

(** X2: [complete] never returns an empty content, whatever the instance
    and the input; without a non-empty override the content is the fixed
    JSON object or a text that starts with "[Mock] ". *)
Theorem complete_content_shape (self : MockLLMProvider.t) (messages : list Py.dict)
    (system : string) (tools : option (list Tool.t)) (max_tokens : Z)
    (response_format : option Py.dict) (json_mode : bool) :
  let content :=
    LLMResponse.content
      (result (complete messages system tools max_tokens response_format
                 json_mode self)) in
  content <> EmptyString
  /\ (Py.truthy (default_response self) = false ->
      (json_mode = true /\ content = json_response)
      \/ (json_mode = false /\ Py.startswith content "[Mock] " = true)).
Proof.
  intros content. unfold content. rewrite complete_eq.
  unfold result, chosen_content; simpl.
  destruct (Py.truthy (default_response self)) eqn:Hdr.
  - split; [now apply truthy_nonempty | discriminate].
  - destruct json_mode.
    + split; [discriminate | intros _; left; now split].
    + split; [apply classify_nonempty|].
      intros _. right. split; [reflexivity | apply classify_prefix].
Qed.

Lemma complete_content_shape_witness :
  (true = true
   /\ LLMResponse.content
        (result (complete hello "Write it" None 1024 None true
                   (__init__ "mock-model" (Some EmptyString))))
      = json_response)
  \/ (true = false
      /\ Py.startswith
           (LLMResponse.content
              (result (complete hello "Write it" None 1024 None true
                         (__init__ "mock-model" (Some EmptyString)))))
           "[Mock] " = true).
Proof.
  apply (complete_content_shape (__init__ "mock-model" (Some EmptyString))
           hello "Write it" None 1024 None true).
  reflexivity.
Defined.

(** ** Arguments the mock does not use *)

Lemma str_int_nonempty (z : Z) : (1 <= String.length (Py.str_int z))%nat.
Proof.
  unfold Py.str_int.
  destruct (to_int_not_nil z) as [Hp Hn].
  destruct (Z.to_int z) as [d|d]; simpl.
  - destruct d; simpl; lia.
  - lia.
Qed.

Lemma classify_length (combined : string) (count : Z) :
  57 <= Py.len (classify combined count).
Proof.
  unfold classify. rewrite first_match_chain.
  repeat match goal with
         | |- context [if ?b then _ else _] => destruct b
         end; try (vm_compute; discriminate).
  unfold fallback_response, Py.len. rewrite !length_append.
  pose proof (str_int_nonempty count). simpl String.length. lia.
Qed.

(** X3: [complete] does not use [tools], [max_tokens] and
    [response_format]: the outcome is the same for any other values, and
    [max_tokens] does not bound the output: without a non-empty override
    [output_tokens] is at least 14 whatever [max_tokens] is. *)
Theorem complete_ignores_limits (self : MockLLMProvider.t) (messages : list Py.dict)
    (system : string) (tools : option (list Tool.t)) (max_tokens : Z)
    (response_format : option Py.dict) (json_mode : bool) :
  (forall (tools' : option (list Tool.t)) (max_tokens' : Z)
          (response_format' : option Py.dict),
      complete messages system tools' max_tokens' response_format' json_mode self
      = complete messages system tools max_tokens response_format json_mode self)
  /\ (Py.truthy (default_response self) = false ->
      14 <= LLMResponse.output_tokens
              (result (complete messages system tools max_tokens response_format
                         json_mode self))).
Proof.
  split; [intros; now rewrite !complete_eq|].
  intros Hdr. rewrite complete_eq. unfold result, chosen_content; simpl.
  rewrite Hdr. destruct json_mode.
  - vm_compute. discriminate.
  - pose proof (classify_length
                  (Py.lower (last_user_message (fun s => s) messages ++ system))
                  (_call_count self + 1)) as Hlen.
    apply Z.div_le_lower_bound; lia.
Qed.

Lemma complete_ignores_limits_witness :
  14 <= LLMResponse.output_tokens
          (result (complete hello "extract the fields" None 1 None false
                     (__init__ "mock-model" None))).
Proof.
  apply (complete_ignores_limits (__init__ "mock-model" None)
           hello "extract the fields" None 1 None false).
  reflexivity.
Defined.

(** ** Sequences of calls *)

Lemma advanced_zero (self : MockLLMProvider.t) : Session.advanced 0 self = self.
Proof.
  destruct self as [m d n]. unfold Session.advanced; simpl. f_equal. lia.
Qed.

Lemma advanced_succ (n : nat) (self : MockLLMProvider.t) :
  Session.advanced (S n) self = Session.advanced n (counted self).
Proof.
  unfold Session.advanced, counted; simpl. f_equal. lia.
Qed.

Lemma run_calls_step (c : call) (cs : list call) (self : MockLLMProvider.t) :
  result (run_calls (c :: cs) self)
  = result (run_call c self) :: result (run_calls cs (counted self)).
Proof.
  pose proof (run_call_after c self) as Hafter.
  simpl. unfold bind, ret, result, after in *.
  destruct (run_call c self) as [r self1]. simpl in Hafter. subst self1.
  destruct (run_calls cs (counted self)) as [rs self2]. reflexivity.
Qed.

Lemma run_calls_nth (cs : list call) (self : MockLLMProvider.t) (i : nat) (c : call) :
  nth_error cs i = Some c ->
  nth_error (result (run_calls cs self)) i
  = Some (result (run_call c (Session.advanced i self))).
Proof.
  revert self i. induction cs as [|c0 cs IH]; intros self [|i] H;
    try discriminate; rewrite run_calls_step; simpl in *.
  - injection H as ->. now rewrite advanced_zero.
  - rewrite advanced_succ. now apply IH.
Qed.

(** X4: in any sequence of calls on one instance, the call at position [i]
    (from 0), when it is a [complete], reports in [raw_response] the call
    count the instance had before the sequence plus [i + 1] (so [i + 1] on
    a fresh instance); a fallback content names that same number. *)
Theorem complete_reports_call_number (cs : list call) (self : MockLLMProvider.t)
    (i : nat) (messages : list Py.dict) (system : string)
    (tools : option (list Tool.t)) (max_tokens : Z)
    (response_format : option Py.dict) (json_mode : bool) :
  nth_error cs i
  = Some (Complete messages system tools max_tokens response_format json_mode) ->
  exists r : LLMResponse.t,
    nth_error (result (run_calls cs self)) i = Some r
    /\ LLMResponse.raw_response r
       = Py.VDict [("mock", Py.VBool true);
                   ("call_count", Py.VInt (_call_count self + Z.of_nat i + 1))]
    /\ (Py.truthy (default_response self) = false ->
        fallback_branch messages system json_mode = true ->
        LLMResponse.content r
        = fallback_response (_call_count self + Z.of_nat i + 1)).
Proof.
  intros Hnth. eexists. split; [exact (run_calls_nth cs self i _ Hnth)|].
  cbn [run_call]. rewrite complete_eq. unfold result; simpl. split; [reflexivity|].
  intros Hdr Hfb. unfold chosen_content; simpl. rewrite Hdr.
  unfold fallback_branch in Hfb.
  destruct json_mode; [discriminate|]. cbn [negb andb] in Hfb.
  destruct (first_match priority_table
              (Py.lower (last_user_message (fun s => s) messages ++ system)))
    eqn:Hm; [discriminate|].
  now rewrite (classify_fallback _ _ Hm).
Qed.

Lemma complete_reports_call_number_witness :
  exists r : LLMResponse.t,
    nth_error
      (result (run_calls
                 [CompleteWithTools hello EmptyString None failing_executor 10;
                  Complete hello "search" None 1024 None false;
                  Complete hello EmptyString None 1024 None false]
                 (__init__ "mock-model" None))) 2
    = Some r
    /\ LLMResponse.raw_response r
       = Py.VDict [("mock", Py.VBool true); ("call_count", Py.VInt (0 + Z.of_nat 2 + 1))]
    /\ (Py.truthy (default_response (__init__ "mock-model" None)) = false ->
        fallback_branch hello EmptyString false = true ->
        LLMResponse.content r = fallback_response (0 + Z.of_nat 2 + 1)).
Proof.
  apply (complete_reports_call_number
           [CompleteWithTools hello EmptyString None failing_executor 10;
            Complete hello "search" None 1024 None false;
            Complete hello EmptyString None 1024 None false]
           (__init__ "mock-model" None) 2 hello EmptyString None 1024 None false).
  reflexivity.
Defined.

(** X5: every response of any sequence of calls on an instance echoes the
    model name the instance was constructed with, has the stop reason
    "end_turn" and is well formed, whatever the calls and their order. *)
Theorem responses_echo_model (cs : list call) (self : MockLLMProvider.t) :
  Forall (fun r => LLMResponse.model r = model self
                   /\ LLMResponse.stop_reason r = "end_turn"
                   /\ well_formed r)
         (result (run_calls cs self)).
Proof.
  revert self. induction cs as [|c cs IH]; intros self.
  - constructor.
  - rewrite run_calls_step. constructor.
    + destruct c; cbn [run_call];
        [rewrite complete_eq | rewrite complete_with_tools_eq];
        unfold result, well_formed; simpl;
        repeat split; apply len_div4_nonneg.
    + exact (IH (counted self)).
Qed.

(** ** Sessions with resets and reads *)

Lemma run_op_after (o : Session.op) (self : MockLLMProvider.t) :
  after (Session.run_op o self)
  = match o with
    | Session.Call _ => counted self
    | Session.Reset => __init__ (model self) (default_response self)
    | Session.ReadCount => self
    end.
Proof.
  destruct o as [c| |]; cbn [Session.run_op].
  - pose proof (run_call_after c self) as H. unfold bind, ret, after in *.
    destruct (run_call c self) as [r s1]. exact H.
  - reflexivity.
  - reflexivity.
Qed.

Lemma run_ops_step (o : Session.op) (os : list Session.op) (self : MockLLMProvider.t) :
  Session.run_ops (o :: os) self
  = (result (Session.run_op o self)
       :: result (Session.run_ops os (after (Session.run_op o self))),
     after (Session.run_ops os (after (Session.run_op o self)))).
Proof.
  simpl. unfold bind, ret, result, after.
  destruct (Session.run_op o self) as [x s1]. simpl.
  destruct (Session.run_ops os s1) as [xs s2]. reflexivity.
Qed.

Lemma run_ops_app (a b : list Session.op) (self : MockLLMProvider.t) :
  Session.run_ops (a ++ b) self
  = ((result (Session.run_ops a self)
        ++ result (Session.run_ops b (after (Session.run_ops a self))))%list,
     after (Session.run_ops b (after (Session.run_ops a self)))).
Proof.
  revert self. induction a as [|o a IH]; intros self.
  - simpl. unfold ret, result, after; simpl.
    now destruct (Session.run_ops b self).
  - change ((o :: a) ++ b)%list with (o :: (a ++ b))%list.
    rewrite !run_ops_step, IH. reflexivity.
Qed.

Lemma after_run_ops_step (o : Session.op) (os : list Session.op)
    (self : MockLLMProvider.t) :
  after (Session.run_ops (o :: os) self)
  = after (Session.run_ops os (after (Session.run_op o self))).
Proof. now rewrite run_ops_step. Qed.

Lemma result_run_ops_step (o : Session.op) (os : list Session.op)
    (self : MockLLMProvider.t) :
  result (Session.run_ops (o :: os) self)
  = result (Session.run_op o self)
      :: result (Session.run_ops os (after (Session.run_op o self))).
Proof. now rewrite run_ops_step. Qed.

Lemma after_run_ops_app (a b : list Session.op) (self : MockLLMProvider.t) :
  after (Session.run_ops (a ++ b) self)
  = after (Session.run_ops b (after (Session.run_ops a self))).
Proof. now rewrite run_ops_app. Qed.

Lemma result_run_ops_app (a b : list Session.op) (self : MockLLMProvider.t) :
  result (Session.run_ops (a ++ b) self)
  = (result (Session.run_ops a self)
       ++ result (Session.run_ops b (after (Session.run_ops a self))))%list.
Proof. now rewrite run_ops_app. Qed.

Lemma run_ops_results_length (os : list Session.op) (self : MockLLMProvider.t) :
  List.length (result (Session.run_ops os self)) = List.length os.
Proof.
  revert self. induction os as [|o os IH]; intros self; [reflexivity|].
  rewrite result_run_ops_step. simpl. now rewrite IH.
Qed.

Lemma run_ops_fields (os : list Session.op) (self : MockLLMProvider.t) :
  model (after (Session.run_ops os self)) = model self
  /\ default_response (after (Session.run_ops os self)) = default_response self.
Proof.
  revert self. induction os as [|o os IH]; intros self; [now split|].
  rewrite after_run_ops_step.
  destruct (IH (after (Session.run_op o self))) as [Hm Hd].
  rewrite Hm, Hd, run_op_after. destruct o; now split.
Qed.

Lemma run_ops_count_no_reset (os : list Session.op) (self : MockLLMProvider.t) :
  forallb (fun o => negb (Session.is_reset o)) os = true ->
  _call_count (after (Session.run_ops os self))
  = _call_count self + Session.calls_in os.
Proof.
  revert self. induction os as [|o os IH]; intros self Hno.
  - unfold Session.calls_in; simpl. lia.
  - simpl in Hno. apply andb_true_iff in Hno as [Ho Hos].
    rewrite after_run_ops_step, (IH _ Hos), run_op_after.
    unfold Session.calls_in in *.
    destruct o; simpl in *; try discriminate; lia.
Qed.

(** X6: in any session of calls, resets and reads on one instance, the
    counter ends at the number of calls made since the last reset, or at
    its initial value plus the number of calls when there was no reset.
    A read, wherever it stands, returns the counter as the operations
    before it left it (counted in the same way), and changes nothing: the
    other observations and the final instance are those of the session
    without the read. *)
Theorem session_counter (os : list Session.op) (self : MockLLMProvider.t) :
  (forallb (fun o => negb (Session.is_reset o)) os = true ->
   _call_count (after (Session.run_ops os self))
   = _call_count self + Session.calls_in os)
  /\ (forall before later : list Session.op,
        os = (before ++ Session.Reset :: later)%list ->
        forallb (fun o => negb (Session.is_reset o)) later = true ->
        _call_count (after (Session.run_ops os self)) = Session.calls_in later)
  /\ (forall before later : list Session.op,
        os = (before ++ Session.ReadCount :: later)%list ->
        let n := _call_count (after (Session.run_ops before self)) in
        let seen_before := result (Session.run_ops before self) in
        let seen_later :=
          result (Session.run_ops later (after (Session.run_ops before self))) in
        nth_error (result (Session.run_ops os self)) (List.length before)
        = Some (Session.Count n)
        /\ (forallb (fun o => negb (Session.is_reset o)) before = true ->
            n = _call_count self + Session.calls_in before)
        /\ (forall earlier since : list Session.op,
              before = (earlier ++ Session.Reset :: since)%list ->
              forallb (fun o => negb (Session.is_reset o)) since = true ->
              n = Session.calls_in since)
        /\ result (Session.run_ops os self)
           = (seen_before ++ Session.Count n :: seen_later)%list
        /\ result (Session.run_ops (before ++ later) self)
           = (seen_before ++ seen_later)%list
        /\ after (Session.run_ops os self)
           = after (Session.run_ops (before ++ later) self)).
Proof.
  split; [apply run_ops_count_no_reset|]. split.
  - intros before later -> Hlater.
    rewrite after_run_ops_app, after_run_ops_step.
    rewrite (run_ops_count_no_reset later _ Hlater), run_op_after. simpl. lia.
  - intros before later -> n seen_before seen_later.
    assert (Hall : result (Session.run_ops (before ++ Session.ReadCount :: later) self)
                   = (seen_before ++ Session.Count n :: seen_later)%list).
    { rewrite result_run_ops_app, result_run_ops_step, run_op_after.
      reflexivity. }
    split; [|split; [|split; [|split; [exact Hall | split]]]].
    + rewrite Hall, nth_error_app2
        by (unfold seen_before; rewrite run_ops_results_length; lia).
      unfold seen_before. rewrite run_ops_results_length, Nat.sub_diag.
      reflexivity.
    + intros Hbefore. apply (run_ops_count_no_reset before self Hbefore).
    + intros earlier since -> Hsince. unfold n.
      rewrite after_run_ops_app, after_run_ops_step.
      rewrite (run_ops_count_no_reset since _ Hsince), run_op_after. simpl. lia.
    + apply result_run_ops_app.
    + rewrite !after_run_ops_app, after_run_ops_step.
      now rewrite run_op_after.
Qed.

Lemma session_counter_witness :
  nth_error
    (result (Session.run_ops
               [Session.Call (Complete hello EmptyString None 1024 None false);
                Session.Call (Complete hello EmptyString None 1024 None false);
                Session.Reset;
                Session.Call (CompleteWithTools hello EmptyString None
                                failing_executor 10);
                Session.ReadCount;
                Session.Call (Complete hello EmptyString None 1024 None false)]
               (__init__ "mock-model" None)))
    4
  = Some (Session.Count
            (Session.calls_in
               [Session.Call (CompleteWithTools hello EmptyString None
                                failing_executor 10)])).
Proof.
  destruct (session_counter
              [Session.Call (Complete hello EmptyString None 1024 None false);
               Session.Call (Complete hello EmptyString None 1024 None false);
               Session.Reset;
               Session.Call (CompleteWithTools hello EmptyString None
                               failing_executor 10);
               Session.ReadCount;
               Session.Call (Complete hello EmptyString None 1024 None false)]
              (__init__ "mock-model" None)) as [_ [_ H]].
  destruct (H [Session.Call (Complete hello EmptyString None 1024 None false);
               Session.Call (Complete hello EmptyString None 1024 None false);
               Session.Reset;
               Session.Call (CompleteWithTools hello EmptyString None
                               failing_executor 10)]
              [Session.Call (Complete hello EmptyString None 1024 None false)]
              eq_refl) as [Hread [_ [Hsince _]]].
  rewrite <- (Hsince
                [Session.Call (Complete hello EmptyString None 1024 None false);
                 Session.Call (Complete hello EmptyString None 1024 None false)]
                [Session.Call (CompleteWithTools hello EmptyString None
                                 failing_executor 10)]
                eq_refl eq_refl).
  exact Hread.
Defined.

(** X7: [reset] puts the instance back into the state it was constructed
    in: whatever happened before, the observations after a reset are those
    of the same operations on a newly constructed instance with the same
    model and override. *)
Theorem reset_restores_fresh_instance (before later : list Session.op)
    (self : MockLLMProvider.t) :
  result (Session.run_ops (before ++ Session.Reset :: later) self)
  = (result (Session.run_ops before self)
       ++ Session.Done
       :: result (Session.run_ops later
                    (__init__ (model self) (default_response self))))%list.
Proof.
  rewrite result_run_ops_app, result_run_ops_step, run_op_after.
  destruct (run_ops_fields before self) as [-> ->]. reflexivity.
Qed.

(** ** The context of the tool loop *)

Lemma take_length (n : nat) (s : string) :
  String.length (Py.take n s) = Nat.min n (String.length s).
Proof.
  revert s. induction n as [|n IH]; intros [|c s]; simpl; try reflexivity.
  now rewrite IH.
Qed.

Lemma take_prefix (n : nat) (s : string) : exists rest, s = Py.take n s ++ rest.
Proof.
  revert s. induction n as [|n IH]; intros s.
  - exists s. reflexivity.
  - destruct s as [|c s]; [now exists EmptyString|].
    destruct (IH s) as [rest Hrest]. exists rest. simpl. now rewrite <- Hrest.
Qed.

Lemma take_all (n : nat) (s : string) :
  (String.length s <= n)%nat -> Py.take n s = s.
Proof.
  revert s. induction n as [|n IH]; intros [|c s] H; simpl in *;
    try reflexivity; try lia.
  rewrite IH; [reflexivity | lia].
Qed.

(** X8: the content of [complete_with_tools] is the fixed frame around
    the serialized list of tool names and a context; the context is the
    first 100 characters of the text of the most recent user message (all
    of it when it is no longer, empty when there is no user message),
    whatever the system string and the override; with [tools] absent or
    empty the list is written "[]". *)
Theorem complete_with_tools_context (self : MockLLMProvider.t)
    (messages : list Py.dict) (system : string) (tools : option (list Tool.t))
    (tool_executor : ToolExecutor) (max_iterations : Z) (o : option Py.dict) :
  most_recent_user messages o ->
  let content :=
    LLMResponse.content
      (result (complete_with_tools messages system tools tool_executor
                 max_iterations self)) in
  let context := Py.take 100 (text_of o) in
  content
  = "[Mock] Processed with tools: "
    ++ Py.str (Py.VList (map Py.VStr (tool_names_of tools)))
    ++ ". Context: " ++ context ++ "..."
  /\ Py.len context = Z.min 100 (Py.len (text_of o))
  /\ (exists rest, text_of o = context ++ rest)
  /\ (Py.len (text_of o) <= 100 -> context = text_of o)
  /\ (tools = None \/ tools = Some [] ->
      Py.str (Py.VList (map Py.VStr (tool_names_of tools))) = "[]").
Proof.
  intros Ho content context. unfold content, context.
  rewrite complete_with_tools_eq. cbv zeta. unfold result.
  cbn [fst LLMResponse.content]. unfold tools_content.
  rewrite (last_user_message_spec (Py.take 100) messages o Ho).
  split; [|split; [|split; [|split]]].
  - destruct o; reflexivity.
  - unfold Py.len. rewrite take_length. lia.
  - apply take_prefix.
  - unfold Py.len. intros H. apply take_all. lia.
  - intros [-> | ->]; reflexivity.
Qed.

Lemma complete_with_tools_context_witness :
  LLMResponse.content
    (result (complete_with_tools
               [[("role", Py.VStr "user"); ("content", Py.VInt 42)];
                [("role", Py.VStr "tool"); ("content", Py.VStr "ignored")]]
               "search" None failing_executor 10
               (__init__ "mock-model" (Some "canned"))))
  = "[Mock] Processed with tools: [" ++ "]. Context: 42...".
Proof.
  destruct (complete_with_tools_context
              (__init__ "mock-model" (Some "canned"))
              [[("role", Py.VStr "user"); ("content", Py.VInt 42)];
               [("role", Py.VStr "tool"); ("content", Py.VStr "ignored")]]
              "search" None failing_executor 10
              (Some [("role", Py.VStr "user"); ("content", Py.VInt 42)]))
    as [H _].
  - apply (mru_some [] [("role", Py.VStr "user"); ("content", Py.VInt 42)]
             [[("role", Py.VStr "tool"); ("content", Py.VStr "ignored")]]).
    + reflexivity.
    + repeat constructor.
  - exact H.
Defined.

(** ** Growth of the input estimate *)

Lemma join_length_app (sep : string) (l more : list string) :
  (String.length (Py.join sep l) <= String.length (Py.join sep (l ++ more)))%nat.
Proof.
  induction l as [|p l IH]; [simpl; lia|].
  destruct l as [|q l].
  - destruct more as [|m more]; [simpl; lia|].
    change (Py.join sep ([p] ++ m :: more))
      with (p ++ sep ++ Py.join sep (m :: more)).
    rewrite length_append. simpl. lia.
  - change (Py.join sep (p :: q :: l)) with (p ++ sep ++ Py.join sep (q :: l)).
    change (Py.join sep ((p :: q :: l) ++ more))
      with (p ++ sep ++ Py.join sep ((q :: l) ++ more)).
    rewrite !length_append. lia.
Qed.

Lemma str_list_eq (items : list Py.value) :
  Py.str (Py.VList items) = "[" ++ Py.join ", " (map Py.repr items) ++ "]".
Proof. reflexivity. Qed.

Lemma serialized_length_app (messages more : list Py.dict) :
  Py.len (Py.str (Py.VList (map Py.VDict messages)))
  <= Py.len (Py.str (Py.VList (map Py.VDict (messages ++ more)))).
Proof.
  unfold Py.len. rewrite !str_list_eq, !map_app, !length_append.
  apply Nat2Z.inj_le, Nat.add_le_mono_l, Nat.add_le_mono_r.
  exact (join_length_app ", " (map Py.repr (map Py.VDict messages))
           (map Py.repr (map Py.VDict more))).
Qed.

(** X9: appending messages to the history never lowers [input_tokens],
    for [complete] and for [complete_with_tools]. *)
Theorem input_tokens_monotone (self : MockLLMProvider.t)
    (messages more : list Py.dict) (system : string)
    (tools : option (list Tool.t)) (max_tokens : Z)
    (response_format : option Py.dict) (json_mode : bool)
    (tool_executor : ToolExecutor) (max_iterations : Z) :
  LLMResponse.input_tokens
    (result (complete messages system tools max_tokens response_format json_mode self))
  <= LLMResponse.input_tokens
       (result (complete (messages ++ more) system tools max_tokens response_format
                  json_mode self))
  /\ LLMResponse.input_tokens
       (result (complete_with_tools messages system tools tool_executor
                  max_iterations self))
     <= LLMResponse.input_tokens
          (result (complete_with_tools (messages ++ more) system tools tool_executor
                     max_iterations self)).
Proof.
  rewrite !complete_eq, !complete_with_tools_eq. cbv zeta. unfold result.
  cbn [fst LLMResponse.input_tokens].
  split; (apply Z.div_le_mono; [lia | apply serialized_length_app]).
Qed.

(** * Validation of log levels ([logging_config.py]) *)

Section LogLevels.

Import LoggingConfig.

Lemma all_ascii_complete (c : ascii) : In c all_ascii.
Proof.
  unfold all_ascii. rewrite <- (ascii_nat_embedding c).
  apply in_map, in_seq. pose proof (nat_ascii_bounded c). lia.
Qed.

Lemma case_check_table :
  forallb (fun c => forallb (case_check c) all_ascii) all_ascii = true.
Proof. vm_compute. reflexivity. Qed.

Lemma case_check_all (c u : ascii) : case_check c u = true.
Proof.
  pose proof case_check_table as H.
  rewrite forallb_forall in H. specialize (H c (all_ascii_complete c)).
  rewrite forallb_forall in H. exact (H u (all_ascii_complete u)).
Qed.

Lemma codes_eqb_eq (a b : list N) : codes_eqb a b = true <-> a = b.
Proof.
  revert b. induction a as [|x a IH]; intros [|y b]; simpl;
    try (split; [discriminate | discriminate]); [tauto|].
  rewrite andb_true_iff, N.eqb_eq, IH. split.
  - now intros [-> ->].
  - intros H. injection H as -> ->. now split.
Qed.

Lemma upper_char_capital (c u : ascii) :
  plain_capital u = true ->
  (upper_char c = [N_of_ascii u] <-> Py.lower_char c = Py.lower_char u)
  /\ (forall x rest, upper_char c = x :: rest -> x = N_of_ascii u ->
      upper_char c = [N_of_ascii u]).
Proof.
  intros Hu. pose proof (case_check_all c u) as H. unfold case_check in H.
  rewrite Hu in H. cbn [negb orb] in H.
  apply andb_true_iff in H as [H1 H2].
  apply Bool.eqb_prop in H1, H2. split.
  - rewrite <- codes_eqb_eq, H1. split.
    + intros E. now apply Ascii.eqb_eq.
    + intros ->. apply Ascii.eqb_refl.
  - intros x rest Hx ->. rewrite Hx in H2.
    rewrite N.eqb_refl in H2. rewrite Hx. apply codes_eqb_eq. now rewrite <- H2.
Qed.

Lemma upper_char_nonempty (c : ascii) : upper_char c <> [].
Proof.
  unfold upper_char.
  repeat match goal with
         | |- context [if ?b then _ else _] => destruct b
         end; discriminate.
Qed.

(** A text upper-cases to a name of plain capitals exactly when both have
    the same lower case. *)
Lemma upper_is_name (name level : string) :
  plain_capitals name = true ->
  (upper level = codes name <-> Py.lower level = Py.lower name).
Proof.
  revert level. induction name as [|u name IH]; intros level Hname.
  - destruct level as [|c level]; simpl; [tauto|].
    split; [|discriminate].
    intros H. apply app_eq_nil in H as [H _]. now apply upper_char_nonempty in H.
  - simpl in Hname. apply andb_true_iff in Hname as [Hu Hname].
    destruct level as [|c level]; simpl; [split; discriminate|].
    destruct (upper_char_capital c u Hu) as [Hiff Hhead]. split.
    + intros H. destruct (upper_char c) as [|x rest] eqn:Hup.
      * now apply upper_char_nonempty in Hup.
      * simpl in H. injection H as Hx Hrest.
        specialize (Hhead x rest eq_refl Hx). injection Hhead as _ ->.
        simpl in Hrest. apply (IH level Hname) in Hrest.
        f_equal; [|exact Hrest].
        apply Hiff. now rewrite Hx.
    + intros H. injection H as Hc Hl.
      apply Hiff in Hc. rewrite Hc. simpl. f_equal. now apply IH.
Qed.

Lemma member_spec (x : list N) (elements : list string) :
  member x elements = true <-> exists e, In e elements /\ codes e = x.
Proof.
  unfold member. rewrite existsb_exists.
  split; intros [e [Hin He]]; exists e; (split; [exact Hin|]);
    now apply codes_eqb_eq.
Qed.

Lemma getattr_returned (table : list (string * Z)) (name : list N) (n : Z) :
  getattr_logging table name = Returned n ->
  exists k, In (k, n) table /\ codes k = name.
Proof.
  induction table as [|[k v] table IH]; simpl; [discriminate|].
  destruct (codes_eqb (codes k) name) eqn:E.
  - intros [= ->]. exists k. split; [now left | now apply codes_eqb_eq].
  - intros H. destruct (IH H) as [k' [Hin Hk']]. exists k'. split; [now right | exact Hk'].
Qed.

Lemma levels_plain (name : string) (n : Z) :
  In (name, n) logging_levels ->
  plain_capitals name = true
  /\ In name VALID_LOG_LEVELS
  /\ getattr_logging logging_levels (codes name) = Returned n.
Proof.
  simpl. intros [H | [H | [H | [H | [H | []]]]]]; injection H as <- <-;
    (split; [reflexivity | split; [simpl; tauto | reflexivity]]).
Qed.

Lemma valid_has_level (name : string) :
  In name VALID_LOG_LEVELS -> exists n, In (name, n) logging_levels.
Proof.
  simpl. intros [<- | [<- | [<- | [<- | [<- | []]]]]];
    eexists; simpl; eauto 6.
Qed.

End LogLevels.

Section SortedLevels.

Import LoggingConfig.

Lemma ascii_compare_lt_trans (a b c : ascii) :
  Ascii.compare a b = Lt -> Ascii.compare b c = Lt -> Ascii.compare a c = Lt.
Proof.
  unfold Ascii.compare. rewrite !N.compare_lt_iff. lia.
Qed.

Lemma string_leb_trans (a b c : string) :
  String.leb a b = true -> String.leb b c = true -> String.leb a c = true.
Proof.
  unfold String.leb. revert b c.
  induction a as [|x a IH]; intros [|y b] [|z c]; simpl; try congruence.
  destruct (Ascii.compare x y) eqn:Hxy; try congruence;
    destruct (Ascii.compare y z) eqn:Hyz; try congruence.
  - apply Ascii.compare_eq_iff in Hxy, Hyz. subst.
    assert (E : Ascii.compare z z = Eq) by (unfold Ascii.compare; apply N.compare_refl).
    rewrite E. apply IH.
  - apply Ascii.compare_eq_iff in Hxy. subst. now rewrite Hyz.
  - apply Ascii.compare_eq_iff in Hyz. subst. now rewrite Hxy.
  - now rewrite (ascii_compare_lt_trans x y z Hxy Hyz).
Qed.

Lemma string_leb_false (a b : string) :
  String.leb a b = false -> String.leb b a = true.
Proof.
  intros H. destruct (String.leb_total a b) as [H' | H']; congruence.
Qed.

Lemma insert_comm (a b : string) (l : list string) :
  insert a (insert b l) = insert b (insert a l).
Proof.
  induction l as [|y l IH]; simpl.
  - destruct (String.leb a b) eqn:Hab, (String.leb b a) eqn:Hba; try reflexivity.
    + now rewrite (String.leb_antisym a b Hab Hba).
    + apply string_leb_false in Hab. congruence.
  - destruct (String.leb b y) eqn:Hby, (String.leb a y) eqn:Hay; simpl;
      rewrite ?Hby, ?Hay.
    + destruct (String.leb a b) eqn:Hab, (String.leb b a) eqn:Hba;
        rewrite ?Hby, ?Hay; try reflexivity.
      * now rewrite (String.leb_antisym a b Hab Hba).
      * apply string_leb_false in Hab. congruence.
    + destruct (String.leb a b) eqn:Hab.
      * rewrite (string_leb_trans a b y Hab Hby) in Hay. discriminate.
      * reflexivity.
    + destruct (String.leb b a) eqn:Hba.
      * rewrite (string_leb_trans b a y Hba Hay) in Hby. discriminate.
      * reflexivity.
    + now rewrite IH.
Qed.

Lemma sorted_permutation (l l' : list string) :
  Permutation l l' -> sorted l = sorted l'.
Proof.
  induction 1 as [|x l l' _ IH|x y l|l1 l2 l3 _ IH1 _ IH2]; simpl.
  - reflexivity.
  - now rewrite IH.
  - apply insert_comm.
  - now rewrite IH1.
Qed.

Lemma member_permutation (x : list N) (l l' : list string) :
  Permutation l l' -> member x l = member x l'.
Proof.
  intros HP. apply eq_true_iff_eq. rewrite !member_spec.
  split; intros [e [Hin He]]; exists e; (split; [|exact He]).
  - now apply (Permutation_in e HP).
  - now apply (Permutation_in e (Permutation_sym HP)).
Qed.

(** X10: with the set [VALID_LOG_LEVELS] iterated in any order,
    [_validate_log_level] returns [n] exactly when the level, compared
    without regard to letter case, is one of the five names and [n] is the
    [logging] constant of that name (10, 20, 30, 40 or 50). *)
Theorem validate_log_level_accepts (valid_log_levels : list string)
    (level : string) (n : Z) :
  Permutation valid_log_levels VALID_LOG_LEVELS ->
  (_validate_log_level valid_log_levels level = Returned n
   <-> exists name, In (name, n) logging_levels
                    /\ Py.lower level = Py.lower name).
Proof.
  intros HP. unfold _validate_log_level.
  rewrite (member_permutation _ _ _ HP). split.
  - destruct (member (upper level) VALID_LOG_LEVELS); cbn [negb]; [|discriminate].
    intros H. apply getattr_returned in H as [k [Hin Hk]].
    exists k. split; [exact Hin|].
    destruct (levels_plain k n Hin) as [Hplain _].
    now apply (upper_is_name k level Hplain).
  - intros [name [Hin Hlower]].
    destruct (levels_plain name n Hin) as [Hplain [Hvalid Hget]].
    apply (upper_is_name name level Hplain) in Hlower.
    assert (Hm : member (upper level) VALID_LOG_LEVELS = true).
    { apply member_spec. exists name. now split. }
    rewrite Hm. cbn [negb]. now rewrite Hlower.
Qed.

Lemma validate_log_level_accepts_witness :
  _validate_log_level ["INFO"; "DEBUG"; "WARNING"; "ERROR"; "CRITICAL"] "wArNiNg"
  = Returned 30.
Proof.
  apply (validate_log_level_accepts
           ["INFO"; "DEBUG"; "WARNING"; "ERROR"; "CRITICAL"] "wArNiNg" 30).
  - apply perm_swap.
  - exists "WARNING". split; [simpl; tauto | reflexivity].
Defined.

(** X11: a level that is none of the five names, compared without regard
    to letter case, makes [_validate_log_level] raise a [ValueError]; its
    message quotes the level as given and lists the valid levels in sorted
    order, the same for every order in which the set is iterated. *)
Theorem validate_log_level_rejects (valid_log_levels : list string)
    (level : string) :
  Permutation valid_log_levels VALID_LOG_LEVELS ->
  (forall name, In name VALID_LOG_LEVELS -> Py.lower level <> Py.lower name) ->
  _validate_log_level valid_log_levels level
  = Raised (ValueError
              ("Invalid log level '" ++ level
               ++ "'. Valid levels are: CRITICAL, DEBUG, ERROR, INFO, WARNING")).
Proof.
  intros HP Hnone. unfold _validate_log_level.
  rewrite (member_permutation _ _ _ HP), (sorted_permutation _ _ HP).
  destruct (member (upper level) VALID_LOG_LEVELS) eqn:Hm; cbn [negb].
  - exfalso. apply member_spec in Hm as [e [Hin He]].
    destruct (valid_has_level e Hin) as [n Hn].
    destruct (levels_plain e n Hn) as [Hplain _].
    apply (Hnone e Hin). apply (upper_is_name e level Hplain). now symmetry.
  - reflexivity.
Qed.

Lemma validate_log_level_rejects_witness :
  _validate_log_level VALID_LOG_LEVELS "Trace"
  = Raised (ValueError
              ("Invalid log level '" ++ "Trace"
               ++ "'. Valid levels are: CRITICAL, DEBUG, ERROR, INFO, WARNING")).
Proof.
  apply (validate_log_level_rejects VALID_LOG_LEVELS "Trace").
  - apply Permutation_refl.
  - simpl. intros name [<- | [<- | [<- | [<- | [<- | []]]]]]; discriminate.
Defined.

End SortedLevels.

(** * Structured content and repeated fallbacks *)

Lemma repr_dict_eq (items : list (string * Py.value)) :
  Py.repr (Py.VDict items)
  = "{" ++ Py.join ", " (map (fun kv : string * Py.value =>
                                let (k, v) := kv in
                                Py.repr_str k ++ ": " ++ Py.repr v) items)
        ++ "}".
Proof. reflexivity. Qed.

Lemma repr_list_eq (items : list Py.value) :
  Py.repr (Py.VList items) = "[" ++ Py.join ", " (map Py.repr items) ++ "]".
Proof. reflexivity. Qed.

Lemma repr_dict_item (items : list (string * Py.value)) (k : string) (v : Py.value) :
  In (k, v) items ->
  Py.contains (Py.repr_str k ++ ": " ++ Py.repr v) (Py.repr (Py.VDict items)) = true.
Proof.
  intros Hin. rewrite repr_dict_eq.
  apply (contains_app_r _ "{"), contains_app_l, join_contains.
  apply (in_map (fun kv : string * Py.value =>
                   let (k, v) := kv in Py.repr_str k ++ ": " ++ Py.repr v)
           items (k, v) Hin).
Qed.

Lemma occurs_in_repr (s : string) (v : Py.value) :
  Content.occurs s v -> verbatim s = true -> Py.contains s (Py.repr v) = true.
Proof.
  intros Hocc Hv.
  induction Hocc as [|items v Hin _ IH|items v Hin|items k v Hin _ IH].
  - now apply repr_str_verbatim.
  - apply (contains_trans _ (Py.repr v)); [exact IH|].
    rewrite repr_list_eq.
    apply (contains_app_r _ "["), contains_app_l, join_contains.
    now apply in_map.
  - apply (contains_trans _ (Py.repr_str s ++ ": " ++ Py.repr v)).
    + apply contains_app_l. now apply repr_str_verbatim.
    + now apply repr_dict_item.
  - apply (contains_trans _ (Py.repr_str k ++ ": " ++ Py.repr v)).
    + apply contains_app_r, contains_app_r. exact IH.
    + now apply repr_dict_item.
Qed.

Lemma occurs_in_str (s : string) (v : Py.value) :
  Content.occurs s v -> verbatim s = true -> Py.contains s (Py.str v) = true.
Proof.
  intros Hocc Hv. destruct v; try (now apply occurs_in_repr).
  inversion Hocc; subst. apply contains_refl.
Qed.

(** X12: the classification sees through structured content: when the
    content of the most recent user message is a list or dict (blocks)
    and a text written unchanged by [repr] occurs in it at any depth, as
    an item, a value or a dict key, a keyword inside that text selects its
    category as it would in a plain text content. *)
Theorem keyword_in_structured_content (self : MockLLMProvider.t)
    (messages : list Py.dict) (system : string) (tools : option (list Tool.t))
    (max_tokens : Z) (response_format : option Py.dict)
    (msg : Py.dict) (s : string)
    (keys : list string) (response key k : string) :
  Py.truthy (default_response self) = false ->
  most_recent_user messages (Some msg) ->
  Content.occurs s (Py.get_default msg "content" (Py.VStr EmptyString)) ->
  verbatim s = true ->
  In (keys, response) priority_table ->
  In key keys ->
  Py.lower k = key ->
  Py.contains k s = true ->
  let content :=
    LLMResponse.content
      (result (complete messages system tools max_tokens response_format false self)) in
  In content (map snd priority_table)
  /\ (key = "search" -> content = search_response).
Proof.
  intros Hdr Ho Hocc Hv Hrow Hkey Hk Hc content.
  assert (Hcontent : content
                     = classify (Py.lower (text_of (Some msg) ++ system))
                         (_call_count self + 1)).
  { apply complete_classifies_last_user_text; assumption. }
  assert (Hin : Py.contains key (Py.lower (text_of (Some msg) ++ system)) = true).
  { rewrite <- Hk. apply contains_lower, contains_app_l.
    apply (contains_trans _ s); [exact Hc|].
    unfold text_of, content_text. now apply occurs_in_str. }
  pose proof (matches_in keys key _ Hkey Hin) as Hm.
  destruct (first_match_some priority_table _ keys response Hrow Hm) as [r [Hr Hr']].
  rewrite Hcontent. unfold classify. rewrite Hr.
  split; [exact Hr'|].
  intros ->. rewrite first_match_chain in Hr. rewrite Hin in Hr. congruence.
Qed.

Lemma keyword_in_structured_content_witness :
  LLMResponse.content
    (result (complete
               [[("role", Py.VStr "user");
                 ("content",
                  Py.VList [Py.VDict [("type", Py.VStr "text");
                                      ("text", Py.VStr "Search for papers")]])]]
               EmptyString None 1024 None false (__init__ "mock-model" None)))
  = search_response.
Proof.
  destruct (keyword_in_structured_content (__init__ "mock-model" None)
              [[("role", Py.VStr "user");
                ("content",
                 Py.VList [Py.VDict [("type", Py.VStr "text");
                                     ("text", Py.VStr "Search for papers")]])]]
              EmptyString None 1024 None
              [("role", Py.VStr "user");
               ("content",
                Py.VList [Py.VDict [("type", Py.VStr "text");
                                    ("text", Py.VStr "Search for papers")]])]
              "Search for papers" ["search"] search_response "search" "Search")
    as [_ H].
  - reflexivity.
  - apply (mru_some [] _ []); [reflexivity | constructor].
  - apply (Content.occurs_item _ _
             (Py.VDict [("type", Py.VStr "text");
                        ("text", Py.VStr "Search for papers")])).
    + left. reflexivity.
    + apply (Content.occurs_value _ _ "text" (Py.VStr "Search for papers")).
      * right. left. reflexivity.
      * constructor.
  - reflexivity.
  - left. reflexivity.
  - left. reflexivity.
  - reflexivity.
  - reflexivity.
  - apply H. reflexivity.
Defined.

(** X13: within one sequence of calls on an instance without a non-empty
    override, two [complete] calls at different positions that both reach
    the fallback branch return different contents. *)
Theorem fallback_contents_distinct (cs : list call) (self : MockLLMProvider.t)
    (i j : nat)
    (messages1 messages2 : list Py.dict) (system1 system2 : string)
    (tools1 tools2 : option (list Tool.t)) (max_tokens1 max_tokens2 : Z)
    (response_format1 response_format2 : option Py.dict)
    (r1 r2 : LLMResponse.t) :
  Py.truthy (default_response self) = false ->
  i <> j ->
  nth_error cs i
  = Some (Complete messages1 system1 tools1 max_tokens1 response_format1 false) ->
  nth_error cs j
  = Some (Complete messages2 system2 tools2 max_tokens2 response_format2 false) ->
  fallback_branch messages1 system1 false = true ->
  fallback_branch messages2 system2 false = true ->
  nth_error (result (run_calls cs self)) i = Some r1 ->
  nth_error (result (run_calls cs self)) j = Some r2 ->
  LLMResponse.content r1 <> LLMResponse.content r2.
Proof.
  intros Hdr Hij Hi Hj Hf1 Hf2 Hr1 Hr2.
  rewrite (run_calls_nth cs self i _ Hi) in Hr1.
  rewrite (run_calls_nth cs self j _ Hj) in Hr2.
  injection Hr1 as <-. injection Hr2 as <-.
  cbn [run_call]. rewrite !complete_eq. unfold result, chosen_content; simpl.
  rewrite Hdr.
  unfold fallback_branch in Hf1, Hf2. cbn [negb andb] in Hf1, Hf2.
  destruct (first_match priority_table
              (Py.lower (last_user_message (fun s => s) messages1 ++ system1)))
    eqn:Hm1; [discriminate|].
  destruct (first_match priority_table
              (Py.lower (last_user_message (fun s => s) messages2 ++ system2)))
    eqn:Hm2; [discriminate|].
  rewrite (classify_fallback _ _ Hm1), (classify_fallback _ _ Hm2).
  intros H. apply fallback_response_inj in H. lia.
Qed.

Lemma fallback_contents_distinct_witness :
  LLMResponse.content
    (result (complete hello EmptyString None 1024 None false
               (Session.advanced 0 (__init__ "mock-model" None))))
  <> LLMResponse.content
       (result (complete [] "hi" None 1024 None false
                  (Session.advanced 2 (__init__ "mock-model" None)))).
Proof.
  apply (fallback_contents_distinct
           [Complete hello EmptyString None 1024 None false;
            Complete hello "search" None 1024 None false;
            Complete [] "hi" None 1024 None false]
           (__init__ "mock-model" None) 0 2
           hello [] EmptyString "hi" None None 1024 1024 None None).
  - reflexivity.
  - discriminate.
  - reflexivity.
  - reflexivity.
  - reflexivity.
  - reflexivity.
  - reflexivity.
  - reflexivity.
Defined.
